(** * IBD wearable data generator: the per-patient timeline

    A shallow embedding of [ibd_hackathon/ibd_data_generator.py].

    - Python [float] is IEEE 754 binary64.  It is modelled by the
      Standard Library's [spec_float] at precision 53 and maximal
      exponent 1024, whose operations round to nearest-even as the
      hardware does, and whose [S754_nan] is [np.nan].
    - Python [int] is [Z].
    - [np.random] is one global generator consumed in call order.  It is
      modelled by a [Source] of raw draws and a cursor that every call
      advances by one; the code runs in a state-and-exception monad over
      that cursor.
    - The thirteen parallel columns of [data] receive one value each per
      loop iteration; the frame is modelled by its rows.
    - A [datetime] is its day ordinal, and stepping past [datetime.max]
      raises as it does in Python. *)

From Stdlib Require Import ZArith Bool String List Lia.
From Stdlib Require Import Floats.SpecFloat.
From Stdlib Require Import Ascii Decimal DecimalString.
From Stdlib Require DecimalZ.
Import ListNotations.
Open Scope Z_scope.

(** ** Python floats *)

Definition float : Type := spec_float.

Module Float.

Definition prec : Z := 53.
Definition emax : Z := 1024.

Definition nan : float := S754_nan.

(** [float(z)] for an integer [z]. *)
Definition of_int (z : Z) : float := binary_normalize prec emax z 0 false.

Definition add : float -> float -> float := SFadd prec emax.
Definition sub : float -> float -> float := SFsub prec emax.
Definition mul : float -> float -> float := SFmul prec emax.
Definition div : float -> float -> float := SFdiv prec emax.

Definition ltb : float -> float -> bool := SFltb.
Definition leb : float -> float -> bool := SFleb.

(** [np.isnan]. *)
Definition isnan (x : float) : bool :=
  match x with
  | S754_nan => true
  | _ => false
  end.

(** A decimal literal [n / 10^k] of the source text, e.g. [14.3] is
    [decimal 143 10]: the double nearest to the quotient. *)
Definition decimal (n d : Z) : float := div (of_int n) (of_int d).

End Float.

Declare Scope float_scope.
Delimit Scope float_scope with float.
Infix "+" := Float.add : float_scope.
Infix "-" := Float.sub : float_scope.
Infix "*" := Float.mul : float_scope.
Infix "/" := Float.div : float_scope.
Infix "<?" := Float.ltb : float_scope.
Infix "<=?" := Float.leb : float_scope.
Notation "x >? y" := (Float.ltb y x) (only parsing) : float_scope.

(** ** Built-ins and numpy functions the generator calls *)

(** The built-in [max(a, b)] keeps its first argument unless the second
    compares greater. *)
Definition py_max (a b : float) : float :=
  if (b >? a)%float then b else a.

(** [np.maximum], [np.minimum] and [np.clip] on scalars: a not-a-number
    first operand is returned as it is. *)
Definition np_maximum (a b : float) : float :=
  if Float.isnan a then a else if (a >? b)%float then a else b.

Definition np_minimum (a b : float) : float :=
  if Float.isnan a then a else if (a <? b)%float then a else b.

Definition np_clip (x a_min a_max : float) : float :=
  np_minimum (np_maximum x a_min) a_max.

(** [range(n)]. *)
Definition range (n : Z) : list Z := map Z.of_nat (seq 0 (Z.to_nat n)).

(** [enumerate(xs)]. *)
Fixpoint enumerate_from {A : Type} (i : Z) (xs : list A) : list (Z * A) :=
  match xs with
  | [] => []
  | x :: xs' => (i, x) :: enumerate_from (i + 1) xs'
  end.

Definition enumerate {A : Type} (xs : list A) : list (Z * A) :=
  enumerate_from 0 xs.

(** ** Dates

    A [datetime] at midnight is modelled by its proleptic Gregorian
    ordinal (day 1 is 0001-01-01), a [timedelta] of whole days by its
    number of days. *)

Module Datetime.

Definition is_leap (year : Z) : bool :=
  (year mod 4 =? 0) && (negb (year mod 100 =? 0) || (year mod 400 =? 0)).

Definition days_before_year (year : Z) : Z :=
  let y := year - 1 in
  y * 365 + y / 4 - y / 100 + y / 400.

Definition days_in_month (year month : Z) : Z :=
  if month =? 2 then (if is_leap year then 29 else 28)
  else if (month =? 4) || (month =? 6) || (month =? 9) || (month =? 11)
       then 30 else 31.

Definition days_before_month (year month : Z) : Z :=
  fold_right Z.add 0
    (map (days_in_month year) (map (Z.add 1) (range (month - 1)))).

Definition ymd2ord (year month day : Z) : Z :=
  days_before_year year + days_before_month year month + day.

Definition datetime (year month day : Z) : Z := ymd2ord year month day.

Definition timedelta (days : Z) : Z := days.

(** The ordinal of [datetime.max], 9999-12-31. *)
Definition MAXORDINAL : Z := 3652059.

End Datetime.

(** ** The random source and the monad of the generator *)

Record Source := {
  gauss_at : nat -> float;     (* standard normal deviates *)
  double_at : nat -> float;    (* uniform doubles of [0, 1) *)
  interval_at : nat -> Z       (* raw integers, reduced into the asked range *)
}.

Inductive exn := ValueError | OverflowError.

Inductive result (A : Type) :=
| Ok (a : A)
| Raise (e : exn).
Arguments Ok {A} a.
Arguments Raise {A} e.

(** A computation reads the source at the cursor and moves the cursor. *)
Definition M (A : Type) : Type := Source -> nat -> result (A * nat).

Definition ret {A : Type} (a : A) : M A := fun _ n => Ok (a, n).

Definition bind {A B : Type} (c : M A) (k : A -> M B) : M B :=
  fun src n =>
    match c src n with
    | Ok (a, n') => k a src n'
    | Raise e => Raise e
    end.

Declare Scope gen_scope.
Delimit Scope gen_scope with gen.
Notation "x <- c ;; k" := (bind c (fun x => k))
  (at level 61, c at next level, right associativity) : gen_scope.

(** A [for] loop whose body yields one value per element. *)
Fixpoint for_each {A B : Type} (body : A -> M B) (xs : list A) : M (list B) :=
  match xs with
  | [] => ret []
  | x :: xs' =>
      (y <- body x ;;
       ys <- for_each body xs' ;;
       ret (y :: ys))%gen
  end.

(** [np.random.normal(loc, scale)]: [loc + scale * g] for a standard
    normal deviate [g]. *)
Definition np_random_normal (loc scale : float) : M float :=
  fun src n => Ok ((loc + scale * gauss_at src n)%float, S n).

(** [np.random.random()]. *)
Definition np_random_random : M float :=
  fun src n => Ok (double_at src n, S n).

(** [np.random.randint(low, high)]: an integer of [low, high), and
    [ValueError] when that interval is empty. *)
Definition np_random_randint (low high : Z) : M Z :=
  fun src n =>
    if low <? high
    then Ok (low + interval_at src n mod (high - low), S n)
    else Raise ValueError.

(** A call that draws nothing. *)
Definition try_ {A : Type} (r : result A) : M A :=
  fun _ n =>
    match r with
    | Ok a => Ok (a, n)
    | Raise e => Raise e
    end.

(** [d + timedelta(days=delta)]: [OverflowError] when the sum leaves
    the ordinals of [datetime.min .. datetime.max].  (A [timedelta]
    that cannot be built, beyond 999999999 days, lies outside that range
    as well and raises the same exception.) *)
Definition datetime_add (d delta : Z) : result Z :=
  if (0 <? d + delta) && (d + delta <=? Datetime.MAXORDINAL)
  then Ok (d + delta)
  else Raise OverflowError.

(** ** Configuration tables *)

Inductive Device := AppleWatch | Fitbit | OuraRing.

Record DeviceChar := {
  hr_hours_per_day : float;
  hrv_hours_per_day : float;
  spo2_hours_per_day : float;
  has_spo2 : bool
}.

Definition DEVICE_CHARACTERISTICS (device : Device) : DeviceChar :=
  match device with
  | AppleWatch =>
      {| hr_hours_per_day := Float.decimal 143 10;
         hrv_hours_per_day := Float.decimal 49 10;
         spo2_hours_per_day := Float.decimal 468 100;
         has_spo2 := true |}
  | Fitbit =>
      {| hr_hours_per_day := Float.decimal 190 10;
         hrv_hours_per_day := Float.decimal 764 100;
         spo2_hours_per_day := Float.of_int 0;
         has_spo2 := false |}
  | OuraRing =>
      {| hr_hours_per_day := Float.decimal 110 10;
         hrv_hours_per_day := Float.decimal 843 100;
         spo2_hours_per_day := Float.of_int 0;
         has_spo2 := false |}
  end.

(** The keys of [BASELINE_PARAMS] and [FLARE_CHANGES], in insertion order. *)
Inductive channel :=
| k_rhr | k_hr | k_hrv_sdnn | k_hrv_rmssd
| k_steps | k_spo2 | k_sleep_hours | k_sleep_efficiency.

Record Normal := { mean : float; std : float }.

Definition BASELINE_PARAMS (param : channel) : Normal :=
  match param with
  | k_rhr => {| mean := Float.of_int 65; std := Float.of_int 8 |}
  | k_hr => {| mean := Float.of_int 75; std := Float.of_int 10 |}
  | k_hrv_sdnn => {| mean := Float.of_int 40; std := Float.of_int 12 |}
  | k_hrv_rmssd => {| mean := Float.of_int 35; std := Float.of_int 10 |}
  | k_steps => {| mean := Float.of_int 8000; std := Float.of_int 2500 |}
  | k_spo2 => {| mean := Float.decimal 975 10; std := Float.decimal 8 10 |}
  | k_sleep_hours => {| mean := Float.decimal 72 10; std := Float.decimal 10 10 |}
  | k_sleep_efficiency => {| mean := Float.of_int 85; std := Float.of_int 5 |}
  end.

Definition FLARE_CHANGES (param : channel) : float :=
  match param with
  | k_rhr => Float.of_int 8
  | k_hr => Float.of_int 10
  | k_hrv_sdnn => Float.decimal (-30) 100
  | k_hrv_rmssd => Float.decimal (-25) 100
  | k_steps => Float.decimal (-40) 100
  | k_spo2 => Float.decimal (-2) 10
  | k_sleep_hours => Float.decimal (-10) 10
  | k_sleep_efficiency => Float.of_int (-15)
  end.

(** ** One row of the returned frame *)

Record Row := {
  patient_id : string;
  date : Z;
  device : Device;
  rhr : float;
  hr : float;
  hrv_sdnn : float;
  hrv_rmssd : float;
  steps : float;
  spo2 : float;
  sleep_hours : float;
  sleep_efficiency : float;
  in_flare : Z;
  days_to_flare : Z
}.

(** ** [generate_patient_timeline] *)

(** Lines 113-116: one normal draw per key, in the order of the keys. *)
Definition draw_baseline : M (channel -> float) :=
  let draw param :=
    np_random_normal (mean (BASELINE_PARAMS param)) (std (BASELINE_PARAMS param)) in
  (b_rhr <- draw k_rhr ;;
   b_hr <- draw k_hr ;;
   b_hrv_sdnn <- draw k_hrv_sdnn ;;
   b_hrv_rmssd <- draw k_hrv_rmssd ;;
   b_steps <- draw k_steps ;;
   b_spo2 <- draw k_spo2 ;;
   b_sleep_hours <- draw k_sleep_hours ;;
   b_sleep_efficiency <- draw k_sleep_efficiency ;;
   ret (fun param =>
          match param with
          | k_rhr => b_rhr
          | k_hr => b_hr
          | k_hrv_sdnn => b_hrv_sdnn
          | k_hrv_rmssd => b_hrv_rmssd
          | k_steps => b_steps
          | k_spo2 => b_spo2
          | k_sleep_hours => b_sleep_hours
          | k_sleep_efficiency => b_sleep_efficiency
          end))%gen.

(** Lines 127-132: the body of the episode loop. *)
Definition draw_flare_period (num_days : Z) : M (Z * Z) :=
  (flare_duration <- np_random_randint 7 22 ;;
   flare_start <- np_random_randint 30 (num_days - flare_duration - 30) ;;
   let flare_end := flare_start + flare_duration in
   ret (flare_start, flare_end))%gen.

(** Lines 119-134. *)
Definition draw_flare_periods (num_days : Z) : M (list (Z * Z)) :=
  (u <- np_random_random ;;
   let has_flare := (u <? Float.decimal 5 10)%float in
   if has_flare
   then
     (num_flares <- np_random_randint 1 4 ;;
      for_each (fun _ => draw_flare_period num_days) (range num_flares))
   else ret [])%gen.

(** Line 156. *)
Definition is_flare_day (flare_periods : list (Z * Z)) (day_idx : Z) : bool :=
  existsb (fun '(start, end_) => (start <=? day_idx) && (day_idx <? end_))
          flare_periods.

(** Lines 160-163: the scan leaves the loop at the first episode that
    starts after [day_idx]; [acc] is the value held before the loop. *)
Fixpoint scan_flare_periods (flare_periods : list (Z * Z)) (day_idx acc : Z) : Z :=
  match flare_periods with
  | [] => acc
  | (start, _) :: rest =>
      if day_idx <? start then start - day_idx
      else scan_flare_periods rest day_idx acc
  end.

(** Lines 159-163. *)
Definition days_to_next_flare (flare_periods : list (Z * Z)) (day_idx : Z) : Z :=
  scan_flare_periods flare_periods day_idx (-1).

(** Lines 166-173. *)
Definition progress_of (days_to_next_flare : Z) (is_flare_day : bool) : float :=
  if (days_to_next_flare >? 0) && (days_to_next_flare <=? 49)
  then (Float.of_int 1 - Float.of_int days_to_next_flare / Float.of_int 49)%float
  else if is_flare_day then Float.of_int 1
  else Float.of_int 0.

(** The eight measurements of a day, before they are stored. *)
Record Vitals := {
  v_rhr : float;
  v_hr : float;
  v_hrv_sdnn : float;
  v_hrv_rmssd : float;
  v_steps : float;
  v_spo2 : float;
  v_sleep_hours : float;
  v_sleep_efficiency : float
}.

(** Lines 176-183. *)
Definition flare_effects (patient_baseline : channel -> float) (progress : float)
  : Vitals :=
  {| v_rhr := (patient_baseline k_rhr + FLARE_CHANGES k_rhr * progress)%float;
     v_hr := (patient_baseline k_hr + FLARE_CHANGES k_hr * progress)%float;
     v_hrv_sdnn :=
       (patient_baseline k_hrv_sdnn
        * (Float.of_int 1 + FLARE_CHANGES k_hrv_sdnn * progress))%float;
     v_hrv_rmssd :=
       (patient_baseline k_hrv_rmssd
        * (Float.of_int 1 + FLARE_CHANGES k_hrv_rmssd * progress))%float;
     v_steps :=
       (patient_baseline k_steps
        * (Float.of_int 1 + FLARE_CHANGES k_steps * progress))%float;
     v_spo2 := (patient_baseline k_spo2 + FLARE_CHANGES k_spo2 * progress)%float;
     v_sleep_hours :=
       (patient_baseline k_sleep_hours + FLARE_CHANGES k_sleep_hours * progress)%float;
     v_sleep_efficiency :=
       (patient_baseline k_sleep_efficiency
        + FLARE_CHANGES k_sleep_efficiency * progress)%float |}.

(** Lines 186-193. *)
Definition add_noise (v : Vitals) : M Vitals :=
  let noise scale := np_random_normal (Float.of_int 0) scale in
  (n_rhr <- noise (Float.of_int 2) ;;
   n_hr <- noise (Float.of_int 3) ;;
   n_hrv_sdnn <- noise (Float.of_int 3) ;;
   n_hrv_rmssd <- noise (Float.decimal 25 10) ;;
   n_steps <- noise (Float.of_int 1000) ;;
   n_spo2 <- noise (Float.decimal 3 10) ;;
   n_sleep_hours <- noise (Float.decimal 5 10) ;;
   n_sleep_efficiency <- noise (Float.of_int 3) ;;
   ret {| v_rhr := (v_rhr v + n_rhr)%float;
          v_hr := (v_hr v + n_hr)%float;
          v_hrv_sdnn := (v_hrv_sdnn v + n_hrv_sdnn)%float;
          v_hrv_rmssd := (v_hrv_rmssd v + n_hrv_rmssd)%float;
          v_steps := (v_steps v + n_steps)%float;
          v_spo2 := (v_spo2 v + n_spo2)%float;
          v_sleep_hours := (v_sleep_hours v + n_sleep_hours)%float;
          v_sleep_efficiency := (v_sleep_efficiency v + n_sleep_efficiency)%float |})%gen.

(** Line 197. *)
Definition measurement_probability (device_char : DeviceChar) : float :=
  (hr_hours_per_day device_char / Float.of_int 24)%float.

(** Lines 199-208: the branch taken when the day's draw [u] exceeds the
    measurement probability. *)
Definition all_missing : Vitals :=
  {| v_rhr := Float.nan; v_hr := Float.nan;
     v_hrv_sdnn := Float.nan; v_hrv_rmssd := Float.nan;
     v_steps := Float.nan; v_spo2 := Float.nan;
     v_sleep_hours := Float.nan; v_sleep_efficiency := Float.nan |}.

Definition apply_missing (device_char : DeviceChar) (u : float) (v : Vitals) : Vitals :=
  if (u >? measurement_probability device_char)%float then all_missing else v.

(** Lines 211-212. *)
Definition apply_capability (device_char : DeviceChar) (v : Vitals) : Vitals :=
  if negb (has_spo2 device_char)
  then {| v_rhr := v_rhr v; v_hr := v_hr v;
          v_hrv_sdnn := v_hrv_sdnn v; v_hrv_rmssd := v_hrv_rmssd v;
          v_steps := v_steps v; v_spo2 := Float.nan;
          v_sleep_hours := v_sleep_hours v;
          v_sleep_efficiency := v_sleep_efficiency v |}
  else v.

(** Lines 215-227: the values appended to the thirteen columns. *)
Definition store (patient_id : string) (date : Z) (device : Device)
    (v : Vitals) (is_flare_day : bool) (days_to_next_flare : Z) : Row :=
  {| patient_id := patient_id;
     date := date;
     device := device;
     rhr := py_max (Float.of_int 40) (v_rhr v);
     hr := py_max (Float.of_int 50) (v_hr v);
     hrv_sdnn := py_max (Float.of_int 5) (v_hrv_sdnn v);
     hrv_rmssd := py_max (Float.of_int 5) (v_hrv_rmssd v);
     steps := py_max (Float.of_int 0) (v_steps v);
     spo2 := if negb (Float.isnan (v_spo2 v))
             then np_clip (v_spo2 v) (Float.of_int 90) (Float.of_int 100)
             else Float.nan;
     sleep_hours := np_clip (v_sleep_hours v) (Float.of_int 3) (Float.of_int 12);
     sleep_efficiency :=
       np_clip (v_sleep_efficiency v) (Float.of_int 40) (Float.of_int 100);
     in_flare := if is_flare_day then 1 else 0;
     days_to_flare := days_to_next_flare |}.

(** Lines 154-227: the body of the daily loop. *)
Definition daily (patient_id : string) (device : Device)
    (patient_baseline : channel -> float) (flare_periods : list (Z * Z))
    (day : Z * Z) : M Row :=
  let '(day_idx, date) := day in
  let flare_day := is_flare_day flare_periods day_idx in
  let to_next := days_to_next_flare flare_periods day_idx in
  let progress := progress_of to_next flare_day in
  (v <- add_noise (flare_effects patient_baseline progress) ;;
   let device_char := DEVICE_CHARACTERISTICS device in
   u <- np_random_random ;;
   let v := apply_capability device_char (apply_missing device_char u v) in
   ret (store patient_id date device v flare_day to_next))%gen.

(** Lines 95-229. *)
Definition generate_patient_timeline (patient_id : string) (num_days : Z)
    (device : Device) : M (list Row) :=
  let start_date := Datetime.datetime 2024 1 1 in
  (dates <- for_each (fun i => try_ (datetime_add start_date (Datetime.timedelta i)))
                     (range num_days) ;;
   patient_baseline <- draw_baseline ;;
   flare_periods <- draw_flare_periods num_days ;;
   for_each (daily patient_id device patient_baseline flare_periods)
            (enumerate dates))%gen.

(** Line 262 of [main]: the duration handed to the generator. *)
Definition clamp_num_days (num_days : Z) : Z := Z.max 90 (Z.min 365 num_days).

(** ** Vocabulary of the statements *)

(** A channel value is present when it is a number. *)
Definition present (x : float) : Prop := Float.isnan x = false.
Definition absent (x : float) : Prop := Float.isnan x = true.

(** The rows of a run; none when the run raised. *)
Definition rows_of (r : result (list Row * nat)) : list Row :=
  match r with
  | Ok (rows, _) => rows
  | Raise _ => []
  end.

(** The row that one day stores, from the day's noisy measurements [v]
    and the day's missingness draw [u]. *)
Definition row_of_day (patient_id : string) (device : Device)
    (flare_periods : list (Z * Z)) (day_idx date : Z) (u : float) (v : Vitals) : Row :=
  let device_char := DEVICE_CHARACTERISTICS device in
  store patient_id date device
        (apply_capability device_char (apply_missing device_char u v))
        (is_flare_day flare_periods day_idx)
        (days_to_next_flare flare_periods day_idx).

(** An episode as line 128-131 places it in a timeline of [num_days]. *)
Definition well_placed (num_days : Z) (period : Z * Z) : Prop :=
  let '(start, end_) := period in
  exists duration,
    7 <= duration <= 21 /\ duration + 60 < num_days /\
    30 <= start /\ end_ = start + duration /\ end_ <= num_days - 30.

(** The clamp ranges of lines 218-225, for the channels that are present. *)
Definition within (low high x : float) : Prop :=
  Float.leb low x = true /\ Float.leb x high = true.

Definition clamped (r : Row) : Prop :=
  (present (rhr r) -> Float.leb (Float.of_int 40) (rhr r) = true) /\
  (present (hr r) -> Float.leb (Float.of_int 50) (hr r) = true) /\
  (present (hrv_sdnn r) -> Float.leb (Float.of_int 5) (hrv_sdnn r) = true) /\
  (present (hrv_rmssd r) -> Float.leb (Float.of_int 5) (hrv_rmssd r) = true) /\
  (present (steps r) -> Float.leb (Float.of_int 0) (steps r) = true) /\
  (present (spo2 r) -> within (Float.of_int 90) (Float.of_int 100) (spo2 r)) /\
  (present (sleep_hours r) ->
   within (Float.of_int 3) (Float.of_int 12) (sleep_hours r)) /\
  (present (sleep_efficiency r) ->
   within (Float.of_int 40) (Float.of_int 100) (sleep_efficiency r)).

(** The measurement of one channel. *)
Definition vital (param : channel) (v : Vitals) : float :=
  match param with
  | k_rhr => v_rhr v
  | k_hr => v_hr v
  | k_hrv_sdnn => v_hrv_sdnn v
  | k_hrv_rmssd => v_hrv_rmssd v
  | k_steps => v_steps v
  | k_spo2 => v_spo2 v
  | k_sleep_hours => v_sleep_hours v
  | k_sleep_efficiency => v_sleep_efficiency v
  end.

(** *** The documented behaviour, to compare the code with

    The flare transforms as the documentation tabulates them: an
    additive shift, or a proportional one given as a fraction. *)
Inductive shift :=
| Additive (change : float)
| Proportional (change : float).

Definition documented_shift (param : channel) : shift :=
  match param with
  | k_rhr => Additive (Float.of_int 8)
  | k_hr => Additive (Float.of_int 10)
  | k_spo2 => Additive (Float.decimal (-2) 10)
  | k_sleep_hours => Additive (Float.of_int (-1))
  | k_sleep_efficiency => Additive (Float.of_int (-15))
  | k_hrv_sdnn => Proportional (Float.decimal (-30) 100)
  | k_hrv_rmssd => Proportional (Float.decimal (-25) 100)
  | k_steps => Proportional (Float.decimal (-40) 100)
  end.

Definition documented_transform (s : shift) (baseline progress : float) : float :=
  match s with
  | Additive change => (baseline + change * progress)%float
  | Proportional change => (baseline * (Float.of_int 1 + change * progress))%float
  end.

(** The linear ramp over the 49 days before an onset. *)
Definition ramp (days : Z) : float :=
  (Float.of_int 1 - Float.of_int days / Float.of_int 49)%float.

(** The documented countdown: the distance to the first listed episode
    that has not started, [-1] without one. *)
Definition documented_days_to_flare (flare_periods : list (Z * Z)) (day_idx : Z) : Z :=
  match find (fun '(start, _) => start >? day_idx) flare_periods with
  | Some (start, _) => start - day_idx
  | None => -1
  end.

(** *** A concrete run

    A source that gives the patient one flare, of 10 days from day 40
    when the timeline has 90 days, and loses the first day: the draw at
    cursor 8 decides the flare, those at 9, 10 and 11 the number of
    episodes, the duration and the start, and the draw at cursor 20 is
    the missingness draw of day 0. *)
Definition scenario_source : Source :=
  {| gauss_at := fun _ => Float.decimal 1 10;
     double_at := fun n =>
       match n with
       | 8%nat => Float.decimal 25 100
       | 20%nat => Float.decimal 9 10
       | _ => Float.decimal 1 10
       end;
     interval_at := fun n =>
       match n with
       | 10%nat => 3
       | 11%nat => 10
       | _ => 0
       end |}.

Definition scenario_run : result (list Row * nat) :=
  generate_patient_timeline "P001" 90 Fitbit scenario_source 0%nat.

(** The same source on a timeline of 60 days. *)
Definition short_run : result (list Row * nat) :=
  generate_patient_timeline "P001" 60 Fitbit scenario_source 0%nat.

(** The value of a column at row [i] of a frame. *)
Definition cell {A : Type} (column : Row -> A) (rows : list Row) (i : nat) : option A :=
  option_map column (nth_error rows i).

(** ** [main]: the patient loop (lines 248-273) *)

Definition NUM_PATIENTS : Z := 100.
Definition MEAN_DAYS_PER_PATIENT : Z := 207.
Definition STD_DAYS : Z := 153.

(** The items of [DEVICE_DISTRIBUTION], in insertion order. *)
Definition DEVICE_DISTRIBUTION : list (Device * float) :=
  [(AppleWatch, Float.decimal 70 100);
   (Fitbit, Float.decimal 15 100);
   (OuraRing, Float.decimal 15 100)].

(** [main] can raise what the generator and [int] raise, and the
    [IndexError] of [np.random.choice]. *)
Inductive py_exn :=
| Exn (e : exn)
| IndexError.

Inductive outcome (A : Type) :=
| Returned (a : A)
| Raised (e : py_exn).
Arguments Returned {A} a.
Arguments Raised {A} e.

Definition Main (A : Type) : Type := Source -> nat -> outcome (A * nat).

Definition main_ret {A : Type} (a : A) : Main A := fun _ n => Returned (a, n).

Definition main_bind {A B : Type} (c : Main A) (k : A -> Main B) : Main B :=
  fun src n =>
    match c src n with
    | Returned (a, n') => k a src n'
    | Raised e => Raised e
    end.

(** A call of the generator's monad from [main]. *)
Definition lift {A : Type} (c : M A) : Main A :=
  fun src n =>
    match c src n with
    | Ok r => Returned r
    | Raise e => Raised (Exn e)
    end.

(** A call that draws nothing. *)
Definition call {A : Type} (r : outcome A) : Main A :=
  fun _ n =>
    match r with
    | Returned a => Returned (a, n)
    | Raised e => Raised e
    end.

Declare Scope main_scope.
Delimit Scope main_scope with main.
Notation "x <- c ;; k" := (main_bind c (fun x => k))
  (at level 61, c at next level, right associativity) : main_scope.

Fixpoint main_for_each {A B : Type} (body : A -> Main B) (xs : list A)
  : Main (list B) :=
  match xs with
  | [] => main_ret []
  | x :: xs' =>
      (y <- body x ;;
       ys <- main_for_each body xs' ;;
       main_ret (y :: ys))%main
  end.

(** [int(x)]: truncation toward zero; [ValueError] on not-a-number and
    [OverflowError] on an infinity. *)
Definition py_int (x : float) : outcome Z :=
  match x with
  | S754_nan => Raised (Exn ValueError)
  | S754_infinity _ => Raised (Exn OverflowError)
  | S754_zero _ => Returned 0
  | S754_finite s m e =>
      let magnitude := Z.shiftl (Zpos m) e in
      Returned (if s then - magnitude else magnitude)
  end.

(** [np.cumsum]. *)
Fixpoint running_sum (acc : float) (p : list float) : list float :=
  match p with
  | [] => []
  | x :: p' => (acc + x)%float :: running_sum (acc + x)%float p'
  end.

Definition np_cumsum (p : list float) : list float :=
  match p with
  | [] => []
  | x :: p' => x :: running_sum x p'
  end.

(** [cdf.searchsorted(u, side='right')] on an ascending [cdf]: the index
    of the first entry that exceeds [u], the length without one. *)
Fixpoint searchsorted_right (cdf : list float) (u : float) : nat :=
  match cdf with
  | [] => 0%nat
  | c :: cdf' => if (u <? c)%float then 0%nat else S (searchsorted_right cdf' u)
  end.

(** [np.random.choice(a, p=p)]: one uniform draw, looked up in the
    normalised cumulative sums of [p]. *)
Definition np_random_choice {A : Type} (a : list A) (p : list float) : Main A :=
  fun src n =>
    let cdf := np_cumsum p in
    let cdf := map (fun c => (c / last cdf Float.nan)%float) cdf in
    let idx := searchsorted_right cdf (double_at src n) in
    match nth_error a idx with
    | Some x => Returned (x, S n)
    | None => Raised IndexError
    end.

(** [format(n, '0Wd')] on the decimal digits of a magnitude. *)
Fixpoint zeros (k : nat) : string :=
  match k with
  | O => EmptyString
  | S k' => String "0"%char (zeros k')
  end.

Definition zfill (width : nat) (digits : string) : string :=
  (zeros (width - String.length digits) ++ digits)%string.

Definition format_03d (n : Z) : string :=
  match Z.to_int n with
  | Decimal.Pos d => zfill 3 (NilZero.string_of_uint d)
  | Decimal.Neg d => String "-"%char (zfill 2 (NilZero.string_of_uint d))
  end.

(** Line 252. *)
Definition patient_id_of (i : Z) : string :=
  String "P"%char (format_03d (i + 1)).

(** Lines 252-266: the body of the patient loop; it yields the frame
    that is appended to [all_patients_data]. *)
Definition main_patient (i : Z) : Main (list Row) :=
  let patient_id := patient_id_of i in
  (device <- np_random_choice (map fst DEVICE_DISTRIBUTION)
                              (map snd DEVICE_DISTRIBUTION) ;;
   x <- lift (np_random_normal (Float.of_int MEAN_DAYS_PER_PATIENT)
                               (Float.of_int STD_DAYS)) ;;
   num_days <- call (py_int x) ;;
   let num_days := clamp_num_days num_days in
   lift (generate_patient_timeline patient_id num_days device))%main.

(** Lines 248-266. *)
Definition all_patients_data : Main (list (list Row)) :=
  main_for_each main_patient (range NUM_PATIENTS).

(** Line 273: [pd.concat(all_patients_data, ignore_index=True)]. *)
Definition combined_df (frames : list (list Row)) : list Row := concat frames.

(** Line 289: [df['in_flare'].sum()]. *)
Definition flare_days (rows : list Row) : Z :=
  fold_right Z.add 0 (map in_flare rows).

(** Line 298: [df.isnull().sum()] at one measurement column. *)
Definition isnull_sum (column : Row -> float) (rows : list Row) : nat :=
  length (filter (fun r => Float.isnan (column r)) rows).

(** A float that is neither not-a-number nor an infinity. *)
Definition finite (x : float) : bool :=
  match x with
  | S754_nan | S754_infinity _ => false
  | _ => true
  end.

(** A source whose draws never change. *)
Definition steady_source : Source :=
  {| gauss_at := fun _ => Float.decimal 1 10;
     double_at := fun _ => Float.decimal 75 100;
     interval_at := fun _ => 4 |}.

(** ** Lists, loops and cursors *)

Lemma range_length (n : Z) : length (range n) = Z.to_nat n.
Proof. unfold range. now rewrite length_map, length_seq. Qed.

Lemma nth_error_seq_some (m i a x : nat) :
  nth_error (seq a m) i = Some x -> x = (a + i)%nat /\ (i < m)%nat.
Proof.
  revert a i. induction m as [|m IH]; intros a [|i] H; simpl in H; try discriminate.
  - injection H as <-. lia.
  - apply IH in H. lia.
Qed.

Lemma nth_error_range (n : Z) (i : nat) (x : Z) :
  nth_error (range n) i = Some x -> x = Z.of_nat i /\ (i < Z.to_nat n)%nat.
Proof.
  unfold range. rewrite nth_error_map.
  destruct (nth_error (seq 0 (Z.to_nat n)) i) as [k|] eqn:E; simpl; [|discriminate].
  intros [= <-]. apply nth_error_seq_some in E. destruct E as [-> ?]. now split.
Qed.

Lemma nth_error_enumerate_from {A : Type} (xs : list A) :
  forall (k : Z) (i : nat) (p : Z * A),
    nth_error (enumerate_from k xs) i = Some p ->
    exists x, nth_error xs i = Some x /\ p = (k + Z.of_nat i, x).
Proof.
  induction xs as [|x xs IH]; intros k [|i] p H; simpl in H; try discriminate.
  - injection H as <-. exists x. split; [reflexivity|]. f_equal. lia.
  - apply IH in H. destruct H as (y & Hy & ->).
    exists y. split; [exact Hy|]. f_equal. lia.
Qed.

Lemma enumerate_from_length {A : Type} (xs : list A) (k : Z) :
  length (enumerate_from k xs) = length xs.
Proof. revert k. induction xs; intros k; simpl; [reflexivity | now rewrite IHxs]. Qed.

Lemma Forall2_nth_error_r {A B : Type} (R : A -> B -> Prop) (xs : list A) (ys : list B) :
  Forall2 R xs ys ->
  forall i y, nth_error ys i = Some y -> exists x, nth_error xs i = Some x /\ R x y.
Proof.
  induction 1 as [|x y xs ys HR _ IH]; intros [|i] y' H; simpl in H; try discriminate.
  - injection H as <-. now exists x.
  - now apply IH.
Qed.

Section Loops.

Context {A B : Type} (body : A -> M B) (src : Source).

(** What a finished loop returned came out of its body, element by
    element. *)
Lemma for_each_rows (xs : list A) :
  forall n ys n',
    for_each body xs src n = Ok (ys, n') ->
    Forall2 (fun x y => exists m m', body x src m = Ok (y, m')) xs ys.
Proof.
  induction xs as [|x xs IH]; intros n ys n'; cbn [for_each]; unfold bind, ret.
  - intros [= <- _]. constructor.
  - destruct (body x src n) as [[y n1]|e] eqn:Ey; [|discriminate].
    destruct (for_each body xs src n1) as [[ys' n2]|e] eqn:Eys; [|discriminate].
    intros [= <- _]. constructor; [now exists n, n1 | now apply IH with n1 n2].
Qed.

(** A body that always returns makes the loop return. *)
Lemma for_each_returns (xs : list A) :
  (forall x n, exists y n', body x src n = Ok (y, n')) ->
  forall n, exists ys n', for_each body xs src n = Ok (ys, n').
Proof.
  intros Hbody. induction xs as [|x xs IH]; intros n; cbn [for_each]; unfold bind, ret.
  - now exists [], n.
  - destruct (Hbody x n) as (y & n1 & ->).
    destruct (IH n1) as (ys & n2 & ->).
    now exists (y :: ys), n2.
Qed.

Lemma for_each_length (xs : list A) (n : nat) (ys : list B) (n' : nat) :
  for_each body xs src n = Ok (ys, n') -> length ys = length xs.
Proof.
  intros H. apply for_each_rows in H. symmetry. revert H. apply Forall2_length.
Qed.

End Loops.

(** ** The parts of the generator, run *)

Lemma draw_baseline_run (src : Source) (n : nat) :
  exists b, draw_baseline src n = Ok (b, (8 + n)%nat).
Proof. eexists. reflexivity. Qed.

Lemma daily_run (pid : string) (dev : Device) (b : channel -> float)
    (periods : list (Z * Z)) (i dt : Z) (src : Source) (n : nat) :
  exists v,
    daily pid dev b periods (i, dt) src n
    = Ok (row_of_day pid dev periods i dt (double_at src (8 + n)%nat) v, (9 + n)%nat).
Proof.
  unfold daily, add_noise, bind, ret, np_random_normal, np_random_random.
  cbv beta iota zeta. eexists. reflexivity.
Qed.

Lemma randint_run (low high : Z) (src : Source) (n : nat) :
  low < high ->
  exists k, low <= k < high /\ np_random_randint low high src n = Ok (k, S n).
Proof.
  intros H. unfold np_random_randint.
  destruct (Z.ltb_spec low high) as [_|]; [|lia].
  eexists. split; [|reflexivity].
  pose proof (Z.mod_pos_bound (interval_at src n) (high - low)). lia.
Qed.

Lemma randint_inv (low high : Z) (src : Source) (n : nat) (k : Z) (n' : nat) :
  np_random_randint low high src n = Ok (k, n') -> low <= k < high.
Proof.
  unfold np_random_randint. destruct (Z.ltb_spec low high) as [H|]; [|discriminate].
  intros [= <- _]. pose proof (Z.mod_pos_bound (interval_at src n) (high - low)). lia.
Qed.

(** An episode that was drawn is well placed. *)
Lemma draw_flare_period_inv (num_days : Z) (src : Source) (n : nat)
    (period : Z * Z) (n' : nat) :
  draw_flare_period num_days src n = Ok (period, n') -> well_placed num_days period.
Proof.
  unfold draw_flare_period, bind, ret.
  destruct (np_random_randint 7 22 src n) as [[d n1]|] eqn:Ed; [|discriminate].
  destruct (np_random_randint 30 (num_days - d - 30) src n1) as [[s n2]|] eqn:Es;
    [|discriminate].
  intros [= <- _]. apply randint_inv in Ed, Es.
  exists d. lia.
Qed.

(** From 82 days on, the window of every duration is inhabited and the
    draw of an episode returns. *)
Lemma draw_flare_period_run (num_days : Z) (src : Source) (n : nat) :
  82 <= num_days ->
  exists period n', draw_flare_period num_days src n = Ok (period, n').
Proof.
  intros H. unfold draw_flare_period, bind, ret.
  destruct (randint_run 7 22 src n) as (d & Hd & ->); [lia|].
  destruct (randint_run 30 (num_days - d - 30) src (S n)) as (s & Hs & ->); [lia|].
  now eexists _, _.
Qed.

Lemma draw_flare_periods_inv (num_days : Z) (src : Source) (n : nat)
    (periods : list (Z * Z)) (n' : nat) :
  draw_flare_periods num_days src n = Ok (periods, n') ->
  Forall (well_placed num_days) periods.
Proof.
  unfold draw_flare_periods, bind, ret, np_random_random.
  destruct (Float.ltb _ _).
  - destruct (np_random_randint 1 4 src (S n)) as [[k n1]|]; [|discriminate].
    intros H. apply for_each_rows in H.
    apply Forall_forall. intros p Hp.
    apply In_nth_error in Hp. destruct Hp as [i Hi].
    destruct (Forall2_nth_error_r _ _ _ H i p Hi) as (_ & _ & m & m' & Hrun).
    now apply draw_flare_period_inv in Hrun.
  - intros [= <- _]. constructor.
Qed.

Lemma draw_flare_periods_run (num_days : Z) (src : Source) (n : nat) :
  82 <= num_days ->
  exists periods n', draw_flare_periods num_days src n = Ok (periods, n').
Proof.
  intros H. unfold draw_flare_periods, bind, ret, np_random_random.
  destruct (Float.ltb _ _).
  - destruct (randint_run 1 4 src (S n)) as (k & _ & ->); [lia|].
    apply for_each_returns. intros _ m. now apply draw_flare_period_run.
  - now eexists _, _.
Qed.

Lemma In_range (n k : Z) : 0 <= k < n -> In k (range n).
Proof.
  intros H. unfold range. apply in_map_iff.
  exists (Z.to_nat k). split; [lia|]. apply in_seq. lia.
Qed.

Lemma In_range_inv (n k : Z) : In k (range n) -> 0 <= k < n.
Proof.
  unfold range. rewrite in_map_iff. intros (j & <- & Hj). apply in_seq in Hj. lia.
Qed.

(** Line 110: the dates are built before anything is drawn. *)
Lemma dates_run (start : Z) (xs : list Z) (src : Source) (n : nat) :
  (forall i, In i xs -> 0 < start + i <= Datetime.MAXORDINAL) ->
  for_each (fun i => try_ (datetime_add start (Datetime.timedelta i))) xs src n
  = Ok (map (fun i => start + i) xs, n).
Proof.
  induction xs as [|x xs IH]; intros H; cbn [for_each map]; [reflexivity|].
  unfold bind at 1. unfold try_ at 1. unfold datetime_add at 1.
  change (Datetime.timedelta x) with x.
  pose proof (H x (or_introl eq_refl)) as Hx.
  destruct (Z.ltb_spec 0 (start + x)); [|lia].
  destruct (Z.leb_spec (start + x) Datetime.MAXORDINAL); [|lia].
  cbn [andb]. unfold bind, ret.
  rewrite IH by (intros i Hi; apply H; now right). reflexivity.
Qed.

Lemma dates_inv (start : Z) (xs : list Z) (src : Source) (n : nat)
    (dates : list Z) (n' : nat) :
  for_each (fun i => try_ (datetime_add start (Datetime.timedelta i))) xs src n
  = Ok (dates, n') ->
  dates = map (fun i => start + i) xs /\ n' = n /\
  forall i, In i xs -> 0 < start + i <= Datetime.MAXORDINAL.
Proof.
  revert dates n'. induction xs as [|x xs IH]; intros dates n'; cbn [for_each map].
  - unfold ret. intros [= <- <-]. split; [reflexivity|]. split; [reflexivity|].
    intros k [].
  - unfold bind at 1. unfold try_ at 1. unfold datetime_add at 1.
    change (Datetime.timedelta x) with x.
    destruct (Z.ltb_spec 0 (start + x)); cbn [andb]; [|discriminate].
    destruct (Z.leb_spec (start + x) Datetime.MAXORDINAL); [|discriminate].
    unfold bind, ret.
    destruct (for_each _ xs src n) as [[ds m]|e] eqn:E; [|discriminate].
    intros [= <- <-]. destruct (IH _ _ eq_refl) as (-> & -> & Hall).
    split; [reflexivity|]. split; [reflexivity|].
    intros i [<-|Hi]; [lia | now apply Hall].
Qed.


Lemma epoch_in_range (num_days : Z) :
  num_days <= 2913174 ->
  forall i, In i (range num_days) ->
    0 < Datetime.datetime 2024 1 1 + i <= Datetime.MAXORDINAL.
Proof.
  intros Hb i Hi. apply In_range_inv in Hi.
  assert (E : Datetime.datetime 2024 1 1 = 738886) by (vm_compute; reflexivity).
  rewrite E. unfold Datetime.MAXORDINAL. lia.
Qed.

(** The frame of a finished call, row by row. *)
Lemma timeline_inv (pid : string) (num_days : Z) (dev : Device) (src : Source)
    (n : nat) (rows : list Row) (n' : nat) :
  generate_patient_timeline pid num_days dev src n = Ok (rows, n') ->
  exists periods n1,
    draw_flare_periods num_days src (8 + n)%nat = Ok (periods, n1) /\
    length rows = Z.to_nat num_days /\
    forall i r, nth_error rows i = Some r ->
      exists u v,
        r = row_of_day pid dev periods (Z.of_nat i)
              (Datetime.datetime 2024 1 1 + Z.of_nat i) u v.
Proof.
  unfold generate_patient_timeline, bind. cbv zeta.
  generalize (Datetime.datetime 2024 1 1). intros start.
  destruct (for_each _ (range num_days) src n) as [[dates n0]|e] eqn:Ed; [|discriminate].
  apply dates_inv in Ed. destruct Ed as (-> & -> & _).
  destruct (draw_baseline_run src n) as [b ->].
  destruct (draw_flare_periods num_days src (8 + n)%nat) as [[periods n1]|] eqn:Ep;
    [|discriminate].
  intros H. exists periods, n1. split; [reflexivity|]. split.
  - apply for_each_length in H. rewrite H. unfold enumerate.
    now rewrite enumerate_from_length, length_map, range_length.
  - intros i r Hi. apply for_each_rows in H.
    destruct (Forall2_nth_error_r _ _ _ H i r Hi) as ([k dt] & Hx & m & m' & Hrun).
    unfold enumerate in Hx. apply nth_error_enumerate_from in Hx.
    destruct Hx as (x & Hx & Hk). rewrite nth_error_map in Hx.
    destruct (nth_error (range num_days) i) as [j|] eqn:Ej; [|discriminate].
    apply nth_error_range in Ej. destruct Ej as [-> _].
    cbn [option_map] in Hx.
    assert (Hdt : dt = start + Z.of_nat i) by congruence.
    assert (Hki : k = Z.of_nat i) by (replace k with (0 + Z.of_nat i) by congruence; lia).
    subst k dt.
    destruct (daily_run pid dev b periods (Z.of_nat i) (start + Z.of_nat i) src m)
      as [v Hv].
    rewrite Hv in Hrun.
    exists (double_at src (8 + m)%nat), v. congruence.
Qed.

(** Once the dates are built and the episodes drawn, nothing in the call
    can raise. *)
Lemma timeline_returns (pid : string) (num_days : Z) (dev : Device) (src : Source)
    (n : nat) (periods : list (Z * Z)) (n1 : nat) :
  num_days <= 2913174 ->
  draw_flare_periods num_days src (8 + n)%nat = Ok (periods, n1) ->
  exists rows n', generate_patient_timeline pid num_days dev src n = Ok (rows, n').
Proof.
  intros Hb Hp. unfold generate_patient_timeline, bind. cbv zeta.
  rewrite (dates_run _ _ src n (epoch_in_range num_days Hb)).
  destruct (draw_baseline_run src n) as [b ->]. rewrite Hp.
  apply for_each_returns. intros [i dt] m.
  destruct (daily_run pid dev b periods i dt src m) as [v ->]. now eexists _, _.
Qed.

(** ** The flare label and the countdown *)

Lemma is_flare_day_spec (periods : list (Z * Z)) (i : Z) :
  is_flare_day periods i = true <->
  exists start end_, In (start, end_) periods /\ start <= i < end_.
Proof.
  unfold is_flare_day. rewrite existsb_exists. split.
  - intros ([s e] & Hin & H). exists s, e. split; [exact Hin|]. lia.
  - intros (s & e & Hin & H). exists (s, e). split; [exact Hin|]. lia.
Qed.

Lemma scan_find (periods : list (Z * Z)) (i acc : Z) :
  scan_flare_periods periods i acc =
  match find (fun '(start, _) => i <? start) periods with
  | Some (start, _) => start - i
  | None => acc
  end.
Proof.
  induction periods as [|[s e] rest IH]; simpl; [reflexivity|].
  destruct (i <? s); [reflexivity | exact IH].
Qed.

(** The countdown is [-1] or the distance to a listed, later start. *)
Lemma countdown_cases (periods : list (Z * Z)) (i : Z) :
  (days_to_next_flare periods i = -1 /\
   forall start end_, In (start, end_) periods -> start <= i) \/
  (exists start end_,
     In (start, end_) periods /\ i < start /\
     days_to_next_flare periods i = start - i).
Proof.
  unfold days_to_next_flare.
  induction periods as [|[s e] rest IH]; simpl.
  - left. split; [reflexivity|]. intros ? ? [].
  - destruct (Z.ltb_spec i s) as [Hlt|Hge].
    + right. exists s, e. auto.
    + destruct IH as [[Heq Hall]|(s' & e' & Hin & Hlt & Heq)].
      * left. split; [exact Heq|].
        intros s' e' [[= <- <-]|Hin]; [lia | eauto].
      * right. exists s', e'. auto.
Qed.

Lemma countdown_not_zero (periods : list (Z * Z)) (i : Z) :
  days_to_next_flare periods i = -1 \/ 1 <= days_to_next_flare periods i.
Proof.
  destruct (countdown_cases periods i) as [[H _]|(s & e & _ & Hlt & ->)]; [now left|].
  right. lia.
Qed.


Lemma countdown_stays_none (periods : list (Z * Z)) (i : Z) :
  days_to_next_flare periods i = -1 ->
  days_to_next_flare periods (i + 1) = -1.
Proof.
  intros H.
  destruct (countdown_cases periods i) as [[_ Hall]|(s & e & _ & Hlt & Heq)]; [|lia].
  destruct (countdown_cases periods (i + 1)) as [[H1 _]|(s & e & Hin & Hlt & _)];
    [exact H1|].
  apply Hall in Hin. lia.
Qed.


(** ** Comparisons and clamps *)

Lemma ltb_leb (a b : float) : Float.ltb a b = true -> Float.leb a b = true.
Proof.
  unfold Float.ltb, Float.leb, SFltb, SFleb.
  destruct (SFcompare a b) as [[| |]|]; congruence.
Qed.

Lemma ltb_present_r (a b : float) : Float.ltb a b = true -> present b.
Proof. destruct b; try reflexivity. destruct a; discriminate. Qed.

Lemma leb_present_l (a b : float) : Float.leb a b = true -> present a.
Proof. destruct a; try reflexivity. discriminate. Qed.

Lemma py_max_cases (a x : float) :
  (py_max a x = a /\ Float.ltb a x = false) \/
  (py_max a x = x /\ Float.ltb a x = true).
Proof. unfold py_max. destruct (Float.ltb a x); auto. Qed.

(** A not-a-number second argument is never greater: the floor comes out. *)
Lemma py_max_nan (a : float) : py_max a Float.nan = a.
Proof. unfold py_max. now destruct a. Qed.

Lemma py_max_floor (a x : float) :
  Float.leb a a = true -> Float.leb a (py_max a x) = true.
Proof.
  intros Ha. destruct (py_max_cases a x) as [[-> _]|[-> H]];
    [exact Ha | now apply ltb_leb].
Qed.

Lemma py_max_present (a x : float) : present a -> present (py_max a x).
Proof.
  intros Ha. destruct (py_max_cases a x) as [[-> _]|[-> H]];
    [exact Ha | now apply ltb_present_r in H].
Qed.

Lemma np_clip_nan (a_min a_max : float) : np_clip Float.nan a_min a_max = Float.nan.
Proof. reflexivity. Qed.

Lemma np_clip_absent (x a_min a_max : float) :
  absent x -> absent (np_clip x a_min a_max).
Proof. destruct x; try discriminate. intros _. reflexivity. Qed.

Lemma np_clip_bounds (x a_min a_max : float) :
  Float.leb a_min a_min = true -> Float.leb a_max a_max = true ->
  Float.leb a_min a_max = true ->
  present x ->
  Float.leb a_min (np_clip x a_min a_max) = true /\
  Float.leb (np_clip x a_min a_max) a_max = true.
Proof.
  intros Hlo Hhi Hlh Hx. unfold np_clip, np_maximum. rewrite Hx.
  destruct (Float.ltb a_min x) eqn:E1; unfold np_minimum.
  - rewrite Hx. destruct (Float.ltb x a_max) eqn:E2; auto using ltb_leb.
  - rewrite (leb_present_l _ _ Hlo).
    destruct (Float.ltb a_min a_max) eqn:E2; auto.
Qed.

(** ** What a row holds *)

Lemma row_label (pid : string) (dev : Device) (periods : list (Z * Z))
    (i dt : Z) (u : float) (v : Vitals) :
  in_flare (row_of_day pid dev periods i dt u v)
  = (if is_flare_day periods i then 1 else 0).
Proof. reflexivity. Qed.

Lemma row_countdown (pid : string) (dev : Device) (periods : list (Z * Z))
    (i dt : Z) (u : float) (v : Vitals) :
  days_to_flare (row_of_day pid dev periods i dt u v) = days_to_next_flare periods i.
Proof. reflexivity. Qed.

Lemma row_date (pid : string) (dev : Device) (periods : list (Z * Z))
    (i dt : Z) (u : float) (v : Vitals) :
  date (row_of_day pid dev periods i dt u v) = dt.
Proof. reflexivity. Qed.

Lemma row_label_flare (pid : string) (dev : Device) (periods : list (Z * Z))
    (i dt : Z) (u : float) (v : Vitals) :
  in_flare (row_of_day pid dev periods i dt u v) = 1 <-> is_flare_day periods i = true.
Proof. rewrite row_label. destruct (is_flare_day periods i); split; congruence. Qed.


(** Closed comparisons of the clamp constants. *)
Lemma leb_constants :
  Float.leb (Float.of_int 40) (Float.of_int 40) = true /\
  Float.leb (Float.of_int 50) (Float.of_int 50) = true /\
  Float.leb (Float.of_int 5) (Float.of_int 5) = true /\
  Float.leb (Float.of_int 0) (Float.of_int 0) = true /\
  Float.leb (Float.of_int 90) (Float.of_int 90) = true /\
  Float.leb (Float.of_int 100) (Float.of_int 100) = true /\
  Float.leb (Float.of_int 90) (Float.of_int 100) = true /\
  Float.leb (Float.of_int 3) (Float.of_int 3) = true /\
  Float.leb (Float.of_int 12) (Float.of_int 12) = true /\
  Float.leb (Float.of_int 3) (Float.of_int 12) = true /\
  Float.leb (Float.of_int 40) (Float.of_int 100) = true.
Proof. vm_compute. repeat split. Qed.

Lemma np_clip_within (x a_min a_max : float) :
  Float.leb a_min a_min = true -> Float.leb a_max a_max = true ->
  Float.leb a_min a_max = true ->
  present (np_clip x a_min a_max) -> within a_min a_max (np_clip x a_min a_max).
Proof.
  intros Hlo Hhi Hlh Hp. apply np_clip_bounds; try assumption.
  destruct x; try reflexivity. discriminate Hp.
Qed.

Lemma store_clamped (pid : string) (dt : Z) (dev : Device) (v : Vitals)
    (flare : bool) (to_next : Z) :
  clamped (store pid dt dev v flare to_next).
Proof.
  destruct leb_constants as (H40 & H50 & H5 & H0 & H90 & H100 & H90_100
                             & H3 & H12 & H3_12 & H40_100).
  unfold clamped, store; cbn [rhr hr hrv_sdnn hrv_rmssd steps spo2 sleep_hours
                                sleep_efficiency].
  repeat match goal with |- _ /\ _ => split end; intros Hp;
    try (now apply py_max_floor);
    try (apply np_clip_within; assumption).
  destruct (Float.isnan (v_spo2 v)) eqn:E; cbn [negb] in *; [discriminate Hp|].
  now apply np_clip_bounds.
Qed.

(** On a day whose draw exceeds the measurement probability the five
    channels stored through [max] hold their floor, and the three
    stored through [np.clip] hold not-a-number. *)
Lemma missing_day_row (pid : string) (dev : Device) (periods : list (Z * Z))
    (i dt : Z) (u : float) (v : Vitals) :
  Float.ltb (measurement_probability (DEVICE_CHARACTERISTICS dev)) u = true ->
  let r := row_of_day pid dev periods i dt u v in
  rhr r = Float.of_int 40 /\ hr r = Float.of_int 50 /\
  hrv_sdnn r = Float.of_int 5 /\ hrv_rmssd r = Float.of_int 5 /\
  steps r = Float.of_int 0 /\
  absent (spo2 r) /\ absent (sleep_hours r) /\ absent (sleep_efficiency r).
Proof.
  intros Hu r. subst r. unfold row_of_day, apply_missing. rewrite Hu.
  unfold store, apply_capability, all_missing.
  destruct (has_spo2 (DEVICE_CHARACTERISTICS dev));
    cbn [negb rhr hr hrv_sdnn hrv_rmssd steps spo2 sleep_hours sleep_efficiency
         v_rhr v_hr v_hrv_sdnn v_hrv_rmssd v_steps v_spo2 v_sleep_hours
         v_sleep_efficiency];
    rewrite !py_max_nan; repeat split.
Qed.

(** The five channels stored through [max] are numbers in every row. *)
Lemma floor_channels_present (pid : string) (dt : Z) (dev : Device) (v : Vitals)
    (flare : bool) (to_next : Z) :
  let r := store pid dt dev v flare to_next in
  present (rhr r) /\ present (hr r) /\ present (hrv_sdnn r) /\
  present (hrv_rmssd r) /\ present (steps r).
Proof.
  cbv zeta. unfold store; cbn [rhr hr hrv_sdnn hrv_rmssd steps].
  repeat split; apply py_max_present; reflexivity.
Qed.

Lemma no_sensor_row (pid : string) (dev : Device) (periods : list (Z * Z))
    (i dt : Z) (u : float) (v : Vitals) :
  has_spo2 (DEVICE_CHARACTERISTICS dev) = false ->
  absent (spo2 (row_of_day pid dev periods i dt u v)).
Proof.
  intros H. unfold row_of_day, store, apply_capability. rewrite H.
  cbn [negb spo2 v_spo2]. reflexivity.
Qed.

(** ** The ramp *)

Lemma ramp_table :
  forallb (fun d => Float.leb (Float.of_int 0) (ramp d)
                    && Float.leb (ramp d) (Float.of_int 1))
          (map (Z.add 1) (range 49)) = true.
Proof. vm_compute. reflexivity. Qed.

Lemma ramp_unit (d : Z) :
  0 < d <= 49 ->
  Float.leb (Float.of_int 0) (ramp d) = true /\
  Float.leb (ramp d) (Float.of_int 1) = true.
Proof.
  intros H. pose proof ramp_table as T. rewrite forallb_forall in T.
  apply andb_prop. apply T. apply in_map_iff.
  exists (d - 1). split; [lia|]. apply In_range. lia.
Qed.

Lemma progress_of_cases (d : Z) (flare : bool) :
  (0 < d <= 49 /\ progress_of d flare = ramp d) \/
  (~ 0 < d <= 49 /\ flare = true /\ progress_of d flare = Float.of_int 1) \/
  (~ 0 < d <= 49 /\ flare = false /\ progress_of d flare = Float.of_int 0).
Proof.
  unfold progress_of.
  destruct (Z.gtb_spec d 0), (Z.leb_spec d 49); cbn [andb];
    try (left; split; [lia | reflexivity]);
    destruct flare; (right; (left + right); split; [lia|split; reflexivity]).
Qed.

Lemma clamp_num_days_range (num_days : Z) : 90 <= clamp_num_days num_days <= 365.
Proof. unfold clamp_num_days. lia. Qed.

Lemma epoch_ordinal : Datetime.datetime 2024 1 1 = 738886.
Proof. vm_compute. reflexivity. Qed.

Lemma scenario_run_ok : scenario_run = Ok (rows_of scenario_run, 822%nat).
Proof. vm_compute. reflexivity. Qed.

Lemma scenario_periods :
  draw_flare_periods 90 scenario_source 8%nat = Ok ([(40, 50)], 12%nat).
Proof. vm_compute. reflexivity. Qed.

Lemma days_to_next_flare_documented (periods : list (Z * Z)) (i : Z) :
  days_to_next_flare periods i = documented_days_to_flare periods i.
Proof.
  unfold days_to_next_flare, documented_days_to_flare.
  induction periods as [|[s e] rest IH]; simpl; [reflexivity|].
  rewrite Z.gtb_ltb. destruct (i <? s); [reflexivity | exact IH].
Qed.

Lemma minus_one_literal : Float.decimal (-10) 10 = Float.of_int (-1).
Proof. vm_compute. reflexivity. Qed.

Lemma unit_constants :
  within (Float.of_int 0) (Float.of_int 1) (Float.of_int 1) /\
  within (Float.of_int 0) (Float.of_int 1) (Float.of_int 0).
Proof. vm_compute. repeat split. Qed.

(** Every day of the timeline has its row in a returned frame. *)
Lemma timeline_days (pid : string) (num_days : Z) (dev : Device) (src : Source)
    (n : nat) (rows : list Row) (n' : nat) :
  generate_patient_timeline pid num_days dev src n = Ok (rows, n') ->
  exists periods n1,
    draw_flare_periods num_days src (8 + n)%nat = Ok (periods, n1) /\
    length rows = Z.to_nat num_days /\
    forall i, 0 <= i < num_days ->
      exists r u v,
        nth_error rows (Z.to_nat i) = Some r /\
        r = row_of_day pid dev periods i (Datetime.datetime 2024 1 1 + i) u v.
Proof.
  intros Hrun.
  destruct (timeline_inv _ _ _ _ _ _ _ Hrun) as (periods & n1 & Hp & Hlen & Hrows).
  exists periods, n1. split; [exact Hp|]. split; [exact Hlen|].
  intros i Hi. destruct (nth_error rows (Z.to_nat i)) as [r|] eqn:Er.
  - destruct (Hrows _ _ Er) as (u & v & Hr). rewrite Z2Nat.id in Hr by lia.
    now exists r, u, v.
  - apply nth_error_None in Er. lia.
Qed.

(** * Properties of the specification *)

(** C1 (the code departs from the claim).  In the scenario run the
    missingness draw of day 0 exceeds the coverage fraction 19/24 of the
    Fitbit, yet the stored row holds the numbers 40, 50, 5, 5 and 0 in
    rhr, hr, hrv_sdnn, hrv_rmssd and steps: [max(floor, nan)] returns the
    floor.  Only spo2, sleep_hours and sleep_efficiency are stored as
    not-a-number. *)
Theorem missing_day_stores_floors :
  Float.ltb (measurement_probability (DEVICE_CHARACTERISTICS Fitbit))
            (double_at scenario_source 20) = true /\
  cell rhr (rows_of scenario_run) 0 = Some (Float.of_int 40) /\
  cell hr (rows_of scenario_run) 0 = Some (Float.of_int 50) /\
  cell hrv_sdnn (rows_of scenario_run) 0 = Some (Float.of_int 5) /\
  cell hrv_rmssd (rows_of scenario_run) 0 = Some (Float.of_int 5) /\
  cell steps (rows_of scenario_run) 0 = Some (Float.of_int 0) /\
  cell (fun r => Float.isnan (rhr r)) (rows_of scenario_run) 0 = Some false /\
  cell (fun r => Float.isnan (spo2 r)) (rows_of scenario_run) 0 = Some true /\
  cell (fun r => Float.isnan (sleep_hours r)) (rows_of scenario_run) 0 = Some true /\
  cell (fun r => Float.isnan (sleep_efficiency r)) (rows_of scenario_run) 0 = Some true.
Proof. vm_compute. repeat split. Qed.

(** C2, as stated, fails: on a timeline of 60 days a patient who draws a
    flare makes [np.random.randint(30, 60 - duration - 30)] raise, and no
    frame is returned. *)
Lemma short_timeline_raises : short_run = Raise ValueError.
Proof. vm_compute. reflexivity. Qed.

(** C2 (amended).  For every patient_id and device and every num_days
    from 82 to 2913174, so for every caller-clamped num_days, the call
    returns exactly num_days rows; row [i] carries the date 2024-01-01
    plus [i] days, a flare label that is 0 or 1 and an integer countdown
    of [-1 .. num_days - 1], whatever the day's measurements are. *)
Theorem timeline_shape (pid : string) (num_days : Z) (dev : Device)
    (src : Source) (n : nat) :
  82 <= num_days -> num_days <= 2913174 ->
  exists rows n',
    generate_patient_timeline pid num_days dev src n = Ok (rows, n') /\
    Z.of_nat (length rows) = num_days /\
    forall i, 0 <= i < num_days ->
      exists r,
        nth_error rows (Z.to_nat i) = Some r /\
        date r = Datetime.datetime 2024 1 1 + i /\
        (in_flare r = 0 \/ in_flare r = 1) /\
        -1 <= days_to_flare r < num_days.
Proof.
  intros Hn Hmax.
  destruct (draw_flare_periods_run num_days src (8 + n)%nat Hn) as (periods & n1 & Hp).
  destruct (timeline_returns pid num_days dev src n periods n1 Hmax Hp)
    as (rows & n' & Hrun).
  exists rows, n'. split; [exact Hrun|].
  destruct (timeline_inv _ _ _ _ _ _ _ Hrun) as (periods' & n1' & Hp' & Hlen & Hrows).
  rewrite Hp in Hp'. injection Hp' as <- <-.
  split; [lia|]. intros i Hi.
  destruct (nth_error rows (Z.to_nat i)) as [r|] eqn:Er.
  - exists r. split; [reflexivity|].
    destruct (Hrows _ _ Er) as (u & v & ->).
    rewrite row_date, row_label, row_countdown, Z2Nat.id by lia.
    split; [reflexivity|]. split; [destruct (is_flare_day periods i); auto|].
    apply draw_flare_periods_inv in Hp. rewrite Forall_forall in Hp.
    destruct (countdown_cases periods i) as [[-> _]|(s & e & Hin & Hlt & ->)]; [lia|].
    apply Hp in Hin. destruct Hin as (d & ? & ? & ? & ? & ?). lia.
  - apply nth_error_None in Er. lia.
Qed.

Lemma timeline_shape_witness :
  82 <= 90 /\ 90 <= 2913174 /\
  exists rows n',
    generate_patient_timeline "P001" 90 Fitbit scenario_source 0%nat = Ok (rows, n') /\
    Z.of_nat (length rows) = 90 /\
    forall i, 0 <= i < 90 ->
      exists r,
        nth_error rows (Z.to_nat i) = Some r /\
        date r = Datetime.datetime 2024 1 1 + i /\
        (in_flare r = 0 \/ in_flare r = 1) /\
        -1 <= days_to_flare r < 90.
Proof.
  split; [lia|]. split; [lia|].
  apply (timeline_shape "P001" 90 Fitbit scenario_source 0%nat); lia.
Defined.

(** C3.  In every row of every returned frame, each channel that is a
    number lies in its clamp range: rhr >= 40, hr >= 50, hrv_sdnn >= 5,
    hrv_rmssd >= 5, steps >= 0, spo2 in [90, 100], sleep_hours in
    [3, 12], sleep_efficiency in [40, 100]. *)
Theorem present_channels_clamped (pid : string) (num_days : Z) (dev : Device)
    (src : Source) (n : nat) (rows : list Row) (n' : nat) :
  generate_patient_timeline pid num_days dev src n = Ok (rows, n') ->
  Forall clamped rows.
Proof.
  intros Hrun.
  destruct (timeline_inv _ _ _ _ _ _ _ Hrun) as (periods & n1 & _ & _ & Hrows).
  apply Forall_forall. intros r Hr.
  apply In_nth_error in Hr. destruct Hr as [i Hi].
  destruct (Hrows _ _ Hi) as (u & v & ->).
  unfold row_of_day. apply store_clamped.
Qed.

Lemma present_channels_clamped_witness :
  generate_patient_timeline "P001" 90 Fitbit scenario_source 0%nat
  = Ok (rows_of scenario_run, 822%nat) /\
  Forall clamped (rows_of scenario_run).
Proof.
  assert (H : generate_patient_timeline "P001" 90 Fitbit scenario_source 0%nat
              = Ok (rows_of scenario_run, 822%nat)) by (vm_compute; reflexivity).
  split; [exact H|].
  exact (present_channels_clamped "P001" 90 Fitbit scenario_source 0%nat _ _ H).
Defined.

(** C4.  On every day the values that the loop body hands to the noise
    step are the baseline transformed by the progress of the day.  The progress is
    [1 - days_to_next_flare / 49] when the countdown is positive and at
    most 49, on a flare day too; otherwise 1.0 on a flare day and 0.0 on
    any other; it lies in [0, 1].  The transforms are additive for rhr
    (+8), hr (+10), spo2 (-0.2), sleep_hours (-1.0) and sleep_efficiency
    (-15), and proportional for hrv_sdnn (-30%), hrv_rmssd (-25%) and
    steps (-40%). *)
Theorem flare_effects_documented (patient_baseline : channel -> float)
    (flare_periods : list (Z * Z)) (day_idx : Z) :
  let d := days_to_next_flare flare_periods day_idx in
  let flare := is_flare_day flare_periods day_idx in
  let progress := progress_of d flare in
  (forall pid dev dt,
     daily pid dev patient_baseline flare_periods (day_idx, dt)
     = (v <- add_noise (flare_effects patient_baseline progress) ;;
        u <- np_random_random ;;
        ret (row_of_day pid dev flare_periods day_idx dt u v))%gen) /\
  (0 < d <= 49 -> progress = ramp d) /\
  (~ 0 < d <= 49 -> flare = true -> progress = Float.of_int 1) /\
  (~ 0 < d <= 49 -> flare = false -> progress = Float.of_int 0) /\
  within (Float.of_int 0) (Float.of_int 1) progress /\
  forall param,
    vital param (flare_effects patient_baseline progress)
    = documented_transform (documented_shift param) (patient_baseline param) progress.
Proof.
  intros d flare progress. subst progress.
  destruct unit_constants as [Hone Hzero].
  repeat match goal with |- _ /\ _ => split end.
  - intros pid dev dt. reflexivity.
  - intros H. destruct (progress_of_cases d flare) as [[_ E]|[[N _]|[N _]]];
      [exact E | contradiction | contradiction].
  - intros N F. destruct (progress_of_cases d flare) as [[H _]|[(_ & _ & E)|(_ & F' & _)]];
      [contradiction | exact E | congruence].
  - intros N F. destruct (progress_of_cases d flare) as [[H _]|[(_ & F' & _)|(_ & _ & E)]];
      [contradiction | congruence | exact E].
  - destruct (progress_of_cases d flare) as [[H ->]|[(_ & _ & ->)|(_ & _ & ->)]];
      [now apply ramp_unit | exact Hone | exact Hzero].
  - intros param. destruct param; unfold vital, flare_effects, documented_shift,
      documented_transform, FLARE_CHANGES;
      cbn [v_rhr v_hr v_hrv_sdnn v_hrv_rmssd v_steps v_spo2 v_sleep_hours
           v_sleep_efficiency];
      rewrite ?minus_one_literal; reflexivity.
Qed.

Lemma flare_effects_documented_witness :
  0 < days_to_next_flare [(40, 50)] 39 <= 49 /\
  progress_of (days_to_next_flare [(40, 50)] 39) (is_flare_day [(40, 50)] 39) = ramp 1.
Proof.
  split; [vm_compute; split; [reflexivity | discriminate]|].
  apply (flare_effects_documented (fun _ => Float.of_int 65) [(40, 50)] 39).
  vm_compute; split; [reflexivity | discriminate].
Defined.

(** C5.  A returned frame has one row per day index of the timeline,
    and in the row of every day index days_to_flare is
    [start - day_index] for the first episode of the list, in the order
    the episodes were drawn, whose start exceeds the day index, and
    [-1] when no episode of the list starts after that day. *)
Theorem countdown_is_first_future (pid : string) (num_days : Z) (dev : Device)
    (src : Source) (n : nat) (rows : list Row) (n' : nat) :
  generate_patient_timeline pid num_days dev src n = Ok (rows, n') ->
  exists flare_periods n1,
    draw_flare_periods num_days src (8 + n)%nat = Ok (flare_periods, n1) /\
    length rows = Z.to_nat num_days /\
    forall day_idx, 0 <= day_idx < num_days ->
      exists r,
        nth_error rows (Z.to_nat day_idx) = Some r /\
        days_to_flare r = documented_days_to_flare flare_periods day_idx /\
        ((forall start end_, In (start, end_) flare_periods -> start <= day_idx) ->
         days_to_flare r = -1).
Proof.
  intros Hrun.
  destruct (timeline_days _ _ _ _ _ _ _ Hrun) as (periods & n1 & Hp & Hlen & Hrows).
  exists periods, n1. split; [exact Hp|]. split; [exact Hlen|]. intros i Hi.
  destruct (Hrows i Hi) as (r & u & v & Hr & ->).
  exists (row_of_day pid dev periods i (Datetime.datetime 2024 1 1 + i) u v).
  split; [exact Hr|]. rewrite row_countdown. split.
  - apply days_to_next_flare_documented.
  - intros Hall.
    destruct (countdown_cases periods i) as [[E _]|(s & e & Hin & Hlt & _)];
      [exact E|].
    apply Hall in Hin. lia.
Qed.

Lemma countdown_is_first_future_witness :
  generate_patient_timeline "P001" 90 Fitbit scenario_source 0%nat
  = Ok (rows_of scenario_run, 822%nat) /\
  exists flare_periods n1,
    draw_flare_periods 90 scenario_source (8 + 0)%nat = Ok (flare_periods, n1) /\
    length (rows_of scenario_run) = Z.to_nat 90 /\
    forall day_idx, 0 <= day_idx < 90 ->
      exists r,
        nth_error (rows_of scenario_run) (Z.to_nat day_idx) = Some r /\
        days_to_flare r = documented_days_to_flare flare_periods day_idx /\
        ((forall start end_, In (start, end_) flare_periods -> start <= day_idx) ->
         days_to_flare r = -1).
Proof.
  assert (H : generate_patient_timeline "P001" 90 Fitbit scenario_source 0%nat
              = Ok (rows_of scenario_run, 822%nat)) by (vm_compute; reflexivity).
  split; [exact H|].
  exact (countdown_is_first_future "P001" 90 Fitbit scenario_source 0%nat _ _ H).
Defined.



(** C7.  For every num_days of the caller-clamped range [90, 365] and
    every duration of [7, 21], the window [30, num_days - duration - 30)
    of the start is inhabited, that is num_days > duration + 60; the
    drawing of the episodes returns, and every episode it lists has
    start >= 30, end = start + duration and end <= num_days - 30. *)
Theorem flare_scheduling_safe (num_days : Z) (src : Source) (n : nat) :
  90 <= num_days <= 365 ->
  clamp_num_days num_days = num_days /\
  (forall duration, 7 <= duration <= 21 ->
     num_days > duration + 60 /\ 30 < num_days - duration - 30) /\
  exists flare_periods n',
    draw_flare_periods num_days src n = Ok (flare_periods, n') /\
    Forall (well_placed num_days) flare_periods.
Proof.
  intros H. split; [unfold clamp_num_days; lia|]. split; [intros d Hd; lia|].
  destruct (draw_flare_periods_run num_days src n) as (periods & n' & Hp); [lia|].
  exists periods, n'. split; [exact Hp|]. now apply draw_flare_periods_inv in Hp.
Qed.

Lemma flare_scheduling_safe_witness :
  90 <= clamp_num_days 42 <= 365 /\
  exists flare_periods n',
    draw_flare_periods (clamp_num_days 42) scenario_source 8%nat
    = Ok (flare_periods, n') /\
    Forall (well_placed (clamp_num_days 42)) flare_periods.
Proof.
  split; [vm_compute; split; discriminate|].
  apply (flare_scheduling_safe (clamp_num_days 42) scenario_source 8%nat).
  vm_compute; split; discriminate.
Defined.

(** C8.  The devices without the spo2 capability are the Fitbit and the
    Oura Ring, and in every row generated for such a device spo2 is
    not-a-number, whatever the source draws. *)
Theorem spo2_absent_without_sensor (pid : string) (num_days : Z) (dev : Device)
    (src : Source) (n : nat) (rows : list Row) (n' : nat) :
  has_spo2 (DEVICE_CHARACTERISTICS dev) = false ->
  generate_patient_timeline pid num_days dev src n = Ok (rows, n') ->
  (dev = Fitbit \/ dev = OuraRing) /\
  Forall (fun r => absent (spo2 r)) rows.
Proof.
  intros Hcap Hrun. split.
  - destruct dev; [discriminate Hcap | now left | now right].
  - destruct (timeline_inv _ _ _ _ _ _ _ Hrun) as (periods & n1 & _ & _ & Hrows).
    apply Forall_forall. intros r Hr.
    apply In_nth_error in Hr. destruct Hr as [i Hi].
    destruct (Hrows _ _ Hi) as (u & v & ->).
    now apply no_sensor_row.
Qed.

Lemma spo2_absent_without_sensor_witness :
  has_spo2 (DEVICE_CHARACTERISTICS OuraRing) = false /\
  generate_patient_timeline "P002" 90 OuraRing scenario_source 0%nat
  = Ok (rows_of (generate_patient_timeline "P002" 90 OuraRing scenario_source 0%nat),
        822%nat) /\
  Forall (fun r => absent (spo2 r))
         (rows_of (generate_patient_timeline "P002" 90 OuraRing scenario_source 0%nat)).
Proof.
  assert (H : generate_patient_timeline "P002" 90 OuraRing scenario_source 0%nat
              = Ok (rows_of (generate_patient_timeline "P002" 90 OuraRing
                               scenario_source 0%nat), 822%nat))
    by (vm_compute; reflexivity).
  split; [reflexivity|]. split; [exact H|].
  apply (spo2_absent_without_sensor "P002" 90 OuraRing scenario_source 0%nat _ _
           eq_refl H).
Defined.

(** C9, as stated, fails: in the scenario (90 days, Fitbit, one episode
    of 10 days from day 40) days_to_flare at index 0 is 40, not 49. *)
Lemma scenario_countdown_starts_at_40 :
  draw_flare_periods 90 scenario_source 8%nat = Ok ([(40, 50)], 12%nat) /\
  cell days_to_flare (rows_of scenario_run) 0 = Some 40 /\
  cell days_to_flare (rows_of scenario_run) 0 <> Some 49.
Proof. vm_compute. repeat split. discriminate. Qed.

(** C9 (amended).  For a timeline of 90 days on the Fitbit whose only
    episode is the 10-day interval from day 40: the frame has 90 rows;
    in_flare = 1 exactly at the indices of [40, 50); days_to_flare is
    [40 - i] at index [i < 40], so 40 at index 0 and 1 at index 39, and
    [-1] from index 40 on; spo2 is not-a-number in all rows. *)
Theorem scenario_fitbit_90 (pid : string) (src : Source) (n n1 : nat) :
  draw_flare_periods 90 src (8 + n)%nat = Ok ([(40, 50)], n1) ->
  exists rows n',
    generate_patient_timeline pid 90 Fitbit src n = Ok (rows, n') /\
    length rows = 90%nat /\
    cell days_to_flare rows 0 = Some 40 /\
    cell days_to_flare rows 39 = Some 1 /\
    forall i r, nth_error rows i = Some r ->
      (in_flare r = 1 <-> 40 <= Z.of_nat i < 50) /\
      (Z.of_nat i < 40 -> days_to_flare r = 40 - Z.of_nat i) /\
      (40 <= Z.of_nat i -> days_to_flare r = -1) /\
      absent (spo2 r).
Proof.
  intros Hp.
  destruct (timeline_returns pid 90 Fitbit src n _ _ ltac:(lia) Hp)
    as (rows & n' & Hrun).
  exists rows, n'. split; [exact Hrun|].
  destruct (timeline_inv _ _ _ _ _ _ _ Hrun) as (periods & n1' & Hp' & Hlen & Hrows).
  rewrite Hp in Hp'. injection Hp' as <- <-.
  assert (Hall : forall i r, nth_error rows i = Some r ->
            (in_flare r = 1 <-> 40 <= Z.of_nat i < 50) /\
            (Z.of_nat i < 40 -> days_to_flare r = 40 - Z.of_nat i) /\
            (40 <= Z.of_nat i -> days_to_flare r = -1) /\
            absent (spo2 r)).
  { intros i r Hi. destruct (Hrows _ _ Hi) as (u & v & ->).
    rewrite row_label_flare, row_countdown.
    unfold is_flare_day, days_to_next_flare. cbn [existsb scan_flare_periods].
    repeat match goal with |- _ /\ _ => split end.
    - rewrite orb_false_r, andb_true_iff. lia.
    - intros H. destruct (Z.ltb_spec (Z.of_nat i) 40); lia.
    - intros H. destruct (Z.ltb_spec (Z.of_nat i) 40); lia.
    - now apply no_sensor_row. }
  assert (Hcell : forall i, (i < 40)%nat ->
            cell days_to_flare rows i = Some (40 - Z.of_nat i)).
  { intros i Hi. unfold cell.
    destruct (nth_error rows i) as [r|] eqn:Er.
    - cbn [option_map]. f_equal. apply (Hall i r Er). lia.
    - apply nth_error_None in Er. change (Z.to_nat 90) with 90%nat in Hlen. lia. }
  split; [exact Hlen|].
  split; [exact (Hcell 0%nat ltac:(lia))|].
  split; [exact (Hcell 39%nat ltac:(lia))|].
  exact Hall.
Qed.

Lemma scenario_fitbit_90_witness :
  draw_flare_periods 90 scenario_source (8 + 0)%nat = Ok ([(40, 50)], 12%nat) /\
  exists rows n',
    generate_patient_timeline "P001" 90 Fitbit scenario_source 0%nat = Ok (rows, n') /\
    length rows = 90%nat /\
    cell days_to_flare rows 0 = Some 40 /\
    cell days_to_flare rows 39 = Some 1 /\
    forall i r, nth_error rows i = Some r ->
      (in_flare r = 1 <-> 40 <= Z.of_nat i < 50) /\
      (Z.of_nat i < 40 -> days_to_flare r = 40 - Z.of_nat i) /\
      (40 <= Z.of_nat i -> days_to_flare r = -1) /\
      absent (spo2 r).
Proof.
  assert (H : draw_flare_periods 90 scenario_source (8 + 0)%nat
              = Ok ([(40, 50)], 12%nat)) by (vm_compute; reflexivity).
  split; [exact H|].
  exact (scenario_fitbit_90 "P001" scenario_source 0%nat 12%nat H).
Defined.

(** C10.  In every row days_to_flare is never 0: it is [-1] or at least
    1.  On the day an episode starts, it is [-1] or the distance to an
    episode of the list that starts strictly later. *)
Theorem countdown_never_zero (pid : string) (num_days : Z) (dev : Device)
    (src : Source) (n : nat) (rows : list Row) (n' : nat) :
  generate_patient_timeline pid num_days dev src n = Ok (rows, n') ->
  exists flare_periods n1,
    draw_flare_periods num_days src (8 + n)%nat = Ok (flare_periods, n1) /\
    forall i r, nth_error rows i = Some r ->
      days_to_flare r <> 0 /\
      (days_to_flare r = -1 \/ 1 <= days_to_flare r) /\
      (forall start end_,
         In (start, end_) flare_periods -> start = Z.of_nat i ->
         days_to_flare r = -1 \/
         exists start' end', In (start', end') flare_periods /\
                             start < start' /\
                             days_to_flare r = start' - Z.of_nat i).
Proof.
  intros Hrun.
  destruct (timeline_inv _ _ _ _ _ _ _ Hrun) as (periods & n1 & Hp & _ & Hrows).
  exists periods, n1. split; [exact Hp|]. intros i r Hi.
  destruct (Hrows _ _ Hi) as (u & v & ->). rewrite row_countdown.
  pose proof (countdown_not_zero periods (Z.of_nat i)) as Hnz.
  split; [lia|]. split; [exact Hnz|].
  intros s e _ ->.
  destruct (countdown_cases periods (Z.of_nat i)) as [[E _]|(s' & e' & Hin & Hlt & E)];
    [now left|].
  right. exists s', e'. repeat split; assumption.
Qed.

Lemma countdown_never_zero_witness :
  generate_patient_timeline "P001" 90 Fitbit scenario_source 0%nat
  = Ok (rows_of scenario_run, 822%nat) /\
  exists flare_periods n1,
    draw_flare_periods 90 scenario_source (8 + 0)%nat = Ok (flare_periods, n1) /\
    forall i r, nth_error (rows_of scenario_run) i = Some r ->
      days_to_flare r <> 0 /\
      (days_to_flare r = -1 \/ 1 <= days_to_flare r) /\
      (forall start end_,
         In (start, end_) flare_periods -> start = Z.of_nat i ->
         days_to_flare r = -1 \/
         exists start' end', In (start', end') flare_periods /\
                             start < start' /\
                             days_to_flare r = start' - Z.of_nat i).
Proof.
  assert (H : generate_patient_timeline "P001" 90 Fitbit scenario_source 0%nat
              = Ok (rows_of scenario_run, 822%nat)) by (vm_compute; reflexivity).
  split; [exact H|].
  exact (countdown_never_zero "P001" 90 Fitbit scenario_source 0%nat _ _ H).
Defined.

(** * Further properties of the generator *)

(** ** Cursors *)

(** A loop whose body always moves the cursor by [k] runs its [i]-th
    iteration at the cursor [k * i] past its start. *)
Lemma for_each_cursor {A B : Type} (body : A -> M B) (src : Source) (k : nat) :
  (forall x n y n', body x src n = Ok (y, n') -> n' = (k + n)%nat) ->
  forall xs n ys n',
    for_each body xs src n = Ok (ys, n') ->
    n' = (k * length xs + n)%nat /\
    forall i y, nth_error ys i = Some y ->
      exists x, nth_error xs i = Some x /\
                body x src (k * i + n)%nat = Ok (y, (k + (k * i + n))%nat).
Proof.
  intros Hk. induction xs as [|x xs IH]; intros n ys n'; cbn [for_each]; unfold bind, ret.
  - intros [= <- <-]. split; [cbn; lia|]. intros [|i] y H; discriminate H.
  - destruct (body x src n) as [[y0 n1]|e] eqn:E0; [|discriminate].
    destruct (for_each body xs src n1) as [[ys' n2]|e] eqn:E1; [|discriminate].
    intros [= <- <-]. pose proof (Hk _ _ _ _ E0) as ->.
    destruct (IH _ _ _ E1) as [-> Hnth]. split; [cbn [length]; lia|].
    intros [|i] y H; cbn [nth_error] in H.
    + injection H as <-. exists x. split; [reflexivity|].
      replace (k * 0 + n)%nat with n by lia. exact E0.
    + destruct (Hnth i y H) as (x' & Hx' & Hrun). exists x'. split; [exact Hx'|].
      replace (k * S i + n)%nat with (k * i + (k + n))%nat by lia. exact Hrun.
Qed.

Lemma draw_flare_period_cursor (num_days : Z) (src : Source) (n : nat)
    (period : Z * Z) (n' : nat) :
  draw_flare_period num_days src n = Ok (period, n') -> n' = (2 + n)%nat.
Proof.
  unfold draw_flare_period, bind, ret, np_random_randint.
  destruct (7 <? 22); [|discriminate].
  destruct (30 <? _); [|discriminate].
  now intros [= _ <-].
Qed.

(** The episodes of a patient: none and one draw, or one to three and
    two draws more per episode. *)
Lemma draw_flare_periods_cursor (num_days : Z) (src : Source) (n : nat)
    (periods : list (Z * Z)) (n' : nat) :
  draw_flare_periods num_days src n = Ok (periods, n') ->
  (Float.ltb (double_at src n) (Float.decimal 5 10) = false /\
   periods = [] /\ n' = S n) \/
  (Float.ltb (double_at src n) (Float.decimal 5 10) = true /\
   (1 <= length periods <= 3)%nat /\ n' = (2 * length periods + 2 + n)%nat).
Proof.
  unfold draw_flare_periods, bind, ret, np_random_random.
  destruct (Float.ltb _ _).
  - destruct (np_random_randint 1 4 src (S n)) as [[k n1]|] eqn:Ek; [|discriminate].
    intros H. right. split; [reflexivity|].
    pose proof (randint_inv _ _ _ _ _ _ Ek) as Hk.
    assert (n1 = S (S n)) as ->.
    { unfold np_random_randint in Ek. destruct (1 <? 4); [|discriminate].
      now injection Ek as _ <-. }
    pose proof (for_each_length _ _ _ _ _ _ H) as Hlen.
    rewrite range_length in Hlen.
    apply (for_each_cursor _ src 2%nat) in H.
    + destruct H as [-> _]. rewrite range_length, Hlen. lia.
    + intros _ m y m'. apply draw_flare_period_cursor.
  - intros [= <- <-]. left. auto.
Qed.

(** An episode that was drawn starts on day 30 or later, lasts 7 to 21
    days and ends before day [num_days - 30]. *)
Lemma draw_flare_periods_margins (num_days : Z) (src : Source) (n : nat)
    (periods : list (Z * Z)) (n' : nat) :
  draw_flare_periods num_days src n = Ok (periods, n') ->
  forall start end_, In (start, end_) periods ->
    30 <= start /\ 7 <= end_ - start <= 21 /\ end_ < num_days - 30.
Proof.
  unfold draw_flare_periods, bind, ret, np_random_random.
  destruct (Float.ltb _ _).
  - destruct (np_random_randint 1 4 src (S n)) as [[k n1]|]; [|discriminate].
    intros H s e Hin. apply for_each_rows in H.
    apply In_nth_error in Hin. destruct Hin as [i Hi].
    destruct (Forall2_nth_error_r _ _ _ H i _ Hi) as (_ & _ & m & m' & Hrun).
    unfold draw_flare_period, bind, ret in Hrun.
    destruct (np_random_randint 7 22 src m) as [[d m1]|] eqn:Ed; [|discriminate].
    destruct (np_random_randint 30 (num_days - d - 30) src m1) as [[s0 m2]|] eqn:Es;
      [|discriminate].
    injection Hrun as <- <- _. apply randint_inv in Ed, Es. lia.
  - intros [= <- _] s e [].
Qed.

Lemma nth_error_days (start num_days : Z) (i : nat) (k dt : Z) :
  nth_error (enumerate (map (fun j => start + j) (range num_days))) i = Some (k, dt) ->
  k = Z.of_nat i /\ dt = start + Z.of_nat i.
Proof.
  intros Hx. unfold enumerate in Hx. apply nth_error_enumerate_from in Hx.
  destruct Hx as (x & Hx & Hk). rewrite nth_error_map in Hx.
  destruct (nth_error (range num_days) i) as [j|] eqn:Ej; [|discriminate].
  apply nth_error_range in Ej. destruct Ej as [-> _].
  cbn [option_map] in Hx. split; [|congruence].
  replace k with (0 + Z.of_nat i) by congruence. lia.
Qed.

(** The frame of a finished call, with the cursor of every day. *)
Lemma timeline_cursor (pid : string) (num_days : Z) (dev : Device) (src : Source)
    (n : nat) (rows : list Row) (n' : nat) :
  generate_patient_timeline pid num_days dev src n = Ok (rows, n') ->
  exists periods n1,
    draw_flare_periods num_days src (8 + n)%nat = Ok (periods, n1) /\
    length rows = Z.to_nat num_days /\
    n' = (9 * length rows + n1)%nat /\
    forall i r, nth_error rows i = Some r ->
      exists v,
        r = row_of_day pid dev periods (Z.of_nat i)
              (Datetime.datetime 2024 1 1 + Z.of_nat i)
              (double_at src (8 + (9 * i + n1))%nat) v.
Proof.
  intros Hrun.
  destruct (timeline_inv _ _ _ _ _ _ _ Hrun) as (periods & n1 & Hp & Hlen & _).
  exists periods, n1. split; [exact Hp|]. split; [exact Hlen|].
  revert Hrun. unfold generate_patient_timeline, bind. cbv zeta.
  generalize (Datetime.datetime 2024 1 1). intros start.
  destruct (for_each _ (range num_days) src n) as [[dates n0]|e] eqn:Ed; [|discriminate].
  apply dates_inv in Ed. destruct Ed as (-> & -> & _).
  destruct (draw_baseline_run src n) as [b ->]. rewrite Hp. intros Hrun.
  pose proof (for_each_length _ _ _ _ _ _ Hrun) as Hl.
  apply (for_each_cursor _ src 9%nat) in Hrun.
  - destruct Hrun as [-> Hnth]. split; [rewrite Hl; reflexivity|].
    intros i r Hi.
    destruct (Hnth i r Hi) as ([k dt] & Hx & Hbody).
    apply nth_error_days in Hx. destruct Hx as [-> ->].
    destruct (daily_run pid dev b periods (Z.of_nat i) (start + Z.of_nat i) src
                (9 * i + n1)%nat) as [v Hv].
    rewrite Hv in Hbody. exists v. congruence.
  - intros [k dt] m y m' Hbody.
    destruct (daily_run pid dev b periods k dt src m) as [v Hv].
    rewrite Hv in Hbody. now injection Hbody as _ <-.
Qed.

Lemma last_day_of_longest_timeline :
  Datetime.datetime 2024 12 30 = Datetime.datetime 2024 1 1 + 364.
Proof. vm_compute. reflexivity. Qed.

(** ** The generator behind the caller's clamp *)

(** X1.  Whatever duration [main] computes, the call it makes after the
    clamp of line 262 never raises, and the frame it returns has as
    many rows as the clamped duration, between 90 and 365. *)
Theorem clamped_call_returns (pid : string) (raw : Z) (dev : Device)
    (src : Source) (n : nat) :
  exists rows n',
    generate_patient_timeline pid (clamp_num_days raw) dev src n = Ok (rows, n') /\
    Z.of_nat (length rows) = clamp_num_days raw /\
    90 <= Z.of_nat (length rows) <= 365.
Proof.
  pose proof (clamp_num_days_range raw) as Hc.
  destruct (draw_flare_periods_run (clamp_num_days raw) src (8 + n)%nat)
    as (periods & n1 & Hp); [lia|].
  destruct (timeline_returns pid (clamp_num_days raw) dev src n periods n1
              ltac:(lia) Hp)
    as (rows & n' & Hrun).
  exists rows, n'. split; [exact Hrun|].
  destruct (timeline_inv _ _ _ _ _ _ _ Hrun) as (_ & _ & _ & Hlen & _).
  rewrite Hlen. lia.
Qed.

(** X2.  In every returned frame the flare rows stay clear of both
    edges: a row with in_flare = 1 has an index of [30, num_days - 32];
    a positive countdown points at a day of [30, num_days - 38]; and
    from index [num_days - 38] on the countdown is [-1]. *)
Theorem flare_rows_clear_of_edges (pid : string) (num_days : Z) (dev : Device)
    (src : Source) (n : nat) (rows : list Row) (n' : nat) :
  generate_patient_timeline pid num_days dev src n = Ok (rows, n') ->
  forall i r, nth_error rows i = Some r ->
    (in_flare r = 1 -> 30 <= Z.of_nat i <= num_days - 32) /\
    (1 <= days_to_flare r ->
     30 <= Z.of_nat i + days_to_flare r <= num_days - 38) /\
    (num_days - 38 <= Z.of_nat i -> days_to_flare r = -1).
Proof.
  intros Hrun i r Hi.
  destruct (timeline_inv _ _ _ _ _ _ _ Hrun) as (periods & n1 & Hp & _ & Hrows).
  pose proof (draw_flare_periods_margins _ _ _ _ _ Hp) as Hm.
  destruct (Hrows _ _ Hi) as (u & v & ->).
  rewrite row_label_flare, row_countdown.
  repeat match goal with |- _ /\ _ => split end.
  - intros Hf. apply is_flare_day_spec in Hf. destruct Hf as (s & e & Hin & Hse).
    apply Hm in Hin. lia.
  - intros Hpos.
    destruct (countdown_cases periods (Z.of_nat i)) as [[E _]|(s & e & Hin & Hlt & E)];
      [lia|].
    apply Hm in Hin. lia.
  - intros Hlate.
    destruct (countdown_cases periods (Z.of_nat i)) as [[E _]|(s & e & Hin & Hlt & E)];
      [exact E|].
    apply Hm in Hin. lia.
Qed.

Lemma flare_rows_clear_of_edges_witness :
  generate_patient_timeline "P001" 90 Fitbit scenario_source 0%nat
  = Ok (rows_of scenario_run, 822%nat) /\
  forall i r, nth_error (rows_of scenario_run) i = Some r ->
    (in_flare r = 1 -> 30 <= Z.of_nat i <= 90 - 32) /\
    (1 <= days_to_flare r -> 30 <= Z.of_nat i + days_to_flare r <= 90 - 38) /\
    (90 - 38 <= Z.of_nat i -> days_to_flare r = -1).
Proof.
  assert (H : generate_patient_timeline "P001" 90 Fitbit scenario_source 0%nat
              = Ok (rows_of scenario_run, 822%nat)) by (vm_compute; reflexivity).
  split; [exact H|].
  exact (flare_rows_clear_of_edges "P001" 90 Fitbit scenario_source 0%nat _ _ H).
Defined.

(** X3.  In every returned frame the columns rhr, hr, hrv_sdnn,
    hrv_rmssd and steps hold no not-a-number at all, so the missing-data
    count that [main] reports for hr, hrv_sdnn and steps is 0. *)
Theorem floor_columns_never_null (pid : string) (num_days : Z) (dev : Device)
    (src : Source) (n : nat) (rows : list Row) (n' : nat) :
  generate_patient_timeline pid num_days dev src n = Ok (rows, n') ->
  isnull_sum rhr rows = 0%nat /\ isnull_sum hr rows = 0%nat /\
  isnull_sum hrv_sdnn rows = 0%nat /\ isnull_sum hrv_rmssd rows = 0%nat /\
  isnull_sum steps rows = 0%nat.
Proof.
  intros Hrun.
  destruct (timeline_inv _ _ _ _ _ _ _ Hrun) as (periods & n1 & _ & _ & Hrows).
  assert (Hall : forall r, In r rows ->
            present (rhr r) /\ present (hr r) /\ present (hrv_sdnn r) /\
            present (hrv_rmssd r) /\ present (steps r)).
  { intros r Hr. apply In_nth_error in Hr. destruct Hr as [i Hi].
    destruct (Hrows _ _ Hi) as (u & v & ->). apply floor_channels_present. }
  assert (Hnone : forall column : Row -> float,
            (forall r, In r rows -> present (column r)) ->
            isnull_sum column rows = 0%nat).
  { intros column Hc. unfold isnull_sum.
    replace (filter (fun r => Float.isnan (column r)) rows) with (@nil Row);
      [reflexivity|].
    symmetry. clear -Hc. induction rows as [|r rows IH]; [reflexivity|].
    cbn [filter]. rewrite (Hc r) by now left.
    apply IH. intros r' Hr'. apply Hc. now right. }
  repeat match goal with |- _ /\ _ => split end; apply Hnone; intros r Hr;
    apply (Hall r Hr).
Qed.

Lemma floor_columns_never_null_witness :
  generate_patient_timeline "P001" 90 Fitbit scenario_source 0%nat
  = Ok (rows_of scenario_run, 822%nat) /\
  isnull_sum rhr (rows_of scenario_run) = 0%nat /\
  isnull_sum hr (rows_of scenario_run) = 0%nat /\
  isnull_sum hrv_sdnn (rows_of scenario_run) = 0%nat /\
  isnull_sum hrv_rmssd (rows_of scenario_run) = 0%nat /\
  isnull_sum steps (rows_of scenario_run) = 0%nat.
Proof.
  assert (H : generate_patient_timeline "P001" 90 Fitbit scenario_source 0%nat
              = Ok (rows_of scenario_run, 822%nat)) by (vm_compute; reflexivity).
  split; [exact H|].
  exact (floor_columns_never_null "P001" 90 Fitbit scenario_source 0%nat _ _ H).
Defined.

(** X4.  In any run, day [i] reads its missingness draw nine draws
    after day [i - 1], at the cursor [8 + 9 * i] past the drawing of the
    episodes.  When that draw exceeds hr_hours_per_day / 24, the row
    stores not-a-number in spo2, sleep_hours and sleep_efficiency, and
    the floors 40, 50, 5, 5 and 0 in the five other channels. *)
Theorem missing_day_in_any_run (pid : string) (num_days : Z) (dev : Device)
    (src : Source) (n : nat) (rows : list Row) (n' : nat) :
  generate_patient_timeline pid num_days dev src n = Ok (rows, n') ->
  exists flare_periods n1,
    draw_flare_periods num_days src (8 + n)%nat = Ok (flare_periods, n1) /\
    forall i r, nth_error rows i = Some r ->
      Float.ltb (measurement_probability (DEVICE_CHARACTERISTICS dev))
                (double_at src (8 + (9 * i + n1))%nat) = true ->
      absent (spo2 r) /\ absent (sleep_hours r) /\ absent (sleep_efficiency r) /\
      rhr r = Float.of_int 40 /\ hr r = Float.of_int 50 /\
      hrv_sdnn r = Float.of_int 5 /\ hrv_rmssd r = Float.of_int 5 /\
      steps r = Float.of_int 0.
Proof.
  intros Hrun.
  destruct (timeline_cursor _ _ _ _ _ _ _ Hrun) as (periods & n1 & Hp & _ & _ & Hrows).
  exists periods, n1. split; [exact Hp|]. intros i r Hi Hu.
  destruct (Hrows _ _ Hi) as (v & ->).
  pose proof (missing_day_row pid dev periods (Z.of_nat i)
                (Datetime.datetime 2024 1 1 + Z.of_nat i) _ v Hu) as H.
  cbv zeta in H. tauto.
Qed.

Lemma missing_day_in_any_run_witness :
  generate_patient_timeline "P001" 90 Fitbit scenario_source 0%nat
  = Ok (rows_of scenario_run, 822%nat) /\
  exists flare_periods n1,
    draw_flare_periods 90 scenario_source (8 + 0)%nat = Ok (flare_periods, n1) /\
    forall i r, nth_error (rows_of scenario_run) i = Some r ->
      Float.ltb (measurement_probability (DEVICE_CHARACTERISTICS Fitbit))
                (double_at scenario_source (8 + (9 * i + n1))%nat) = true ->
      absent (spo2 r) /\ absent (sleep_hours r) /\ absent (sleep_efficiency r) /\
      rhr r = Float.of_int 40 /\ hr r = Float.of_int 50 /\
      hrv_sdnn r = Float.of_int 5 /\ hrv_rmssd r = Float.of_int 5 /\
      steps r = Float.of_int 0.
Proof.
  assert (H : generate_patient_timeline "P001" 90 Fitbit scenario_source 0%nat
              = Ok (rows_of scenario_run, 822%nat)) by (vm_compute; reflexivity).
  split; [exact H|].
  exact (missing_day_in_any_run "P001" 90 Fitbit scenario_source 0%nat _ _ H).
Defined.

(** X5.  A returned call has consumed 9 draws per day, 8 for the
    baseline and 1 to decide the flare, and with a flare 1 more for the
    number of episodes and 2 per episode, of which there are at most 3. *)
Theorem draws_consumed (pid : string) (num_days : Z) (dev : Device)
    (src : Source) (n : nat) (rows : list Row) (n' : nat) :
  generate_patient_timeline pid num_days dev src n = Ok (rows, n') ->
  exists flare_periods n1,
    draw_flare_periods num_days src (8 + n)%nat = Ok (flare_periods, n1) /\
    (length flare_periods <= 3)%nat /\
    n' = (9 * Z.to_nat num_days
          + match flare_periods with
            | [] => 9
            | _ :: _ => 10 + 2 * length flare_periods
            end
          + n)%nat.
Proof.
  intros Hrun.
  destruct (timeline_cursor _ _ _ _ _ _ _ Hrun) as (periods & n1 & Hp & Hlen & -> & _).
  exists periods, n1. split; [exact Hp|]. rewrite Hlen.
  destruct (draw_flare_periods_cursor _ _ _ _ _ Hp) as [(_ & -> & ->)|(_ & Hk & ->)].
  - cbn [length]. lia.
  - destruct periods as [|p periods]; [cbn [length] in Hk; lia|]. lia.
Qed.

Lemma draws_consumed_witness :
  generate_patient_timeline "P001" 90 Fitbit scenario_source 0%nat
  = Ok (rows_of scenario_run, 822%nat) /\
  exists flare_periods n1,
    draw_flare_periods 90 scenario_source (8 + 0)%nat = Ok (flare_periods, n1) /\
    (length flare_periods <= 3)%nat /\
    822%nat = (9 * Z.to_nat 90
               + match flare_periods with
                 | [] => 9
                 | _ :: _ => 10 + 2 * length flare_periods
                 end
               + 0)%nat.
Proof.
  assert (H : generate_patient_timeline "P001" 90 Fitbit scenario_source 0%nat
              = Ok (rows_of scenario_run, 822%nat)) by (vm_compute; reflexivity).
  split; [exact H|].
  exact (draws_consumed "P001" 90 Fitbit scenario_source 0%nat _ _ H).
Defined.

(** X6.  Every date of a frame that [main] asks for lies in 2024, from
    2024-01-01 to 2024-12-30: the clamp allows 365 days and 2024 has
    366. *)
Theorem dates_in_2024 (pid : string) (raw : Z) (dev : Device)
    (src : Source) (n : nat) (rows : list Row) (n' : nat) :
  generate_patient_timeline pid (clamp_num_days raw) dev src n = Ok (rows, n') ->
  Forall (fun r => Datetime.datetime 2024 1 1 <= date r
                   <= Datetime.datetime 2024 12 30) rows.
Proof.
  intros Hrun. rewrite last_day_of_longest_timeline.
  destruct (timeline_inv _ _ _ _ _ _ _ Hrun) as (periods & n1 & _ & Hlen & Hrows).
  pose proof (clamp_num_days_range raw) as Hc.
  apply Forall_forall. intros r Hr.
  apply In_nth_error in Hr. destruct Hr as [i Hi].
  assert (i < length rows)%nat by (apply nth_error_Some; congruence).
  destruct (Hrows _ _ Hi) as (u & v & ->). rewrite row_date. lia.
Qed.

Lemma dates_in_2024_witness :
  generate_patient_timeline "P001" (clamp_num_days 42) Fitbit scenario_source 0%nat
  = Ok (rows_of scenario_run, 822%nat) /\
  Forall (fun r => Datetime.datetime 2024 1 1 <= date r
                   <= Datetime.datetime 2024 12 30) (rows_of scenario_run).
Proof.
  assert (H : generate_patient_timeline "P001" (clamp_num_days 42) Fitbit
                scenario_source 0%nat
              = Ok (rows_of scenario_run, 822%nat)) by (vm_compute; reflexivity).
  split; [exact H|].
  exact (dates_in_2024 "P001" 42 Fitbit scenario_source 0%nat _ _ H).
Defined.

(** ** The onset ramp *)

Lemma ramp_pairs :
  forallb (fun d =>
             forallb (fun d' => if d <? d' then Float.ltb (ramp d') (ramp d) else true)
                     (map (Z.add 1) (range 49)))
          (map (Z.add 1) (range 49)) = true.
Proof. vm_compute. reflexivity. Qed.

Lemma In_ramp_days (d : Z) : 0 < d <= 49 -> In d (map (Z.add 1) (range 49)).
Proof.
  intros H. apply in_map_iff. exists (d - 1). split; [lia|]. apply In_range. lia.
Qed.

Lemma ramp_ends :
  ramp 49 = Float.of_int 0 /\ Float.ltb (ramp 1) (Float.of_int 1) = true.
Proof. vm_compute. split; reflexivity. Qed.

(** X7.  Over the 49 days before an onset the progress rises strictly
    from day to day, in binary64: it is exactly 0.0 at 49 days, larger
    at every smaller countdown, and still below 1.0 on the last day
    before the onset. *)
Theorem progress_rises_to_onset (d d' : Z) (flare flare' : bool) :
  0 < d -> d < d' -> d' <= 49 ->
  Float.ltb (progress_of d' flare') (progress_of d flare) = true /\
  progress_of 49 flare = Float.of_int 0 /\
  Float.ltb (progress_of 1 flare) (Float.of_int 1) = true.
Proof.
  intros H0 Hlt H49. split.
  - destruct (progress_of_cases d flare) as [[_ ->]|[[N _]|[N _]]]; try lia.
    destruct (progress_of_cases d' flare') as [[_ ->]|[[N _]|[N _]]]; try lia.
    pose proof ramp_pairs as T. rewrite forallb_forall in T.
    specialize (T d (In_ramp_days d ltac:(lia))). rewrite forallb_forall in T.
    specialize (T d' (In_ramp_days d' ltac:(lia))).
    destruct (Z.ltb_spec d d'); [exact T | lia].
  - destruct ramp_ends as [E49 E1].
    destruct (progress_of_cases 49 flare) as [[_ ->]|[[N _]|[N _]]]; try lia.
    destruct (progress_of_cases 1 flare) as [[_ ->]|[[N _]|[N _]]]; try lia.
    now split.
Qed.

Lemma progress_rises_to_onset_witness :
  0 < 1 /\ 1 < 2 /\ 2 <= 49 /\
  Float.ltb (progress_of 2 false) (progress_of 1 true) = true.
Proof.
  split; [lia|]. split; [lia|]. split; [lia|].
  apply (progress_rises_to_onset 1 2 true false); lia.
Defined.

(** ** Counting flare days *)

Lemma sum_app (l l' : list Z) :
  fold_right Z.add 0 (l ++ l') = fold_right Z.add 0 l + fold_right Z.add 0 l'.
Proof. induction l as [|x l IH]; simpl; [reflexivity | rewrite IH; lia]. Qed.

Lemma sum_pointwise_le {A : Type} (f g : A -> Z) (l : list A) :
  (forall x, In x l -> f x <= g x) ->
  fold_right Z.add 0 (map f l) <= fold_right Z.add 0 (map g l).
Proof.
  induction l as [|x l IH]; intros H; cbn [map fold_right]; [lia|].
  pose proof (H x (or_introl eq_refl)).
  assert (fold_right Z.add 0 (map f l) <= fold_right Z.add 0 (map g l))
    by (apply IH; intros y Hy; apply H; now right).
  lia.
Qed.

Lemma sum_map_add {A : Type} (f g : A -> Z) (l : list A) :
  fold_right Z.add 0 (map (fun x => f x + g x) l)
  = fold_right Z.add 0 (map f l) + fold_right Z.add 0 (map g l).
Proof. induction l as [|x l IH]; simpl; [reflexivity | rewrite IH; lia]. Qed.

Lemma sum_map_zero {A : Type} (l : list A) :
  fold_right Z.add 0 (map (fun _ => 0) l) = 0.
Proof. induction l as [|x l IH]; simpl; [reflexivity | rewrite IH; lia]. Qed.

Lemma range_succ (m : nat) :
  range (Z.of_nat (S m)) = range (Z.of_nat m) ++ [Z.of_nat m].
Proof. unfold range. rewrite !Nat2Z.id, seq_S, map_app. reflexivity. Qed.

Lemma range_to_nat (n : Z) : range n = range (Z.of_nat (Z.to_nat n)).
Proof. unfold range. now rewrite Nat2Z.id. Qed.

Lemma nth_error_range_lt (n : Z) (i : nat) :
  (i < Z.to_nat n)%nat -> nth_error (range n) i = Some (Z.of_nat i).
Proof.
  intros H. destruct (nth_error (range n) i) as [x|] eqn:E.
  - apply nth_error_range in E. now destruct E as [-> _].
  - apply nth_error_None in E. rewrite range_length in E. lia.
Qed.

(** The days of the first [m] that one interval covers. *)
Lemma count_interval (s e : Z) (m : nat) :
  0 <= s ->
  fold_right Z.add 0
    (map (fun i => if (s <=? i) && (i <? e) then 1 else 0) (range (Z.of_nat m)))
  = Z.max 0 (Z.min e (Z.of_nat m) - s).
Proof.
  intros Hs. induction m as [|m IH].
  - cbn. lia.
  - rewrite range_succ, map_app, sum_app, IH. cbn [map fold_right].
    destruct (Z.leb_spec s (Z.of_nat m)), (Z.ltb_spec (Z.of_nat m) e);
      cbn [andb]; lia.
Qed.

Lemma flare_count_upper (periods : list (Z * Z)) (m : nat) :
  (forall s e, In (s, e) periods -> 0 <= s /\ 0 <= e - s <= 21) ->
  0 <= fold_right Z.add 0
         (map (fun i => if is_flare_day periods i then 1 else 0) (range (Z.of_nat m)))
    <= 21 * Z.of_nat (length periods).
Proof.
  induction periods as [|[s e] ps IH]; intros H.
  - unfold is_flare_day. cbn [existsb length]. rewrite sum_map_zero. lia.
  - assert (Hps : forall s' e', In (s', e') ps -> 0 <= s' /\ 0 <= e' - s' <= 21)
      by (intros s' e' Hin; apply H; now right).
    specialize (IH Hps). destruct (H s e (or_introl eq_refl)) as [Hs Hd].
    split.
    + pose proof (sum_pointwise_le
                    (fun _ : Z => 0)
                    (fun i => if is_flare_day ((s, e) :: ps) i then 1 else 0)
                    (range (Z.of_nat m))) as Hge.
      rewrite sum_map_zero in Hge. apply Hge.
      intros i _. destruct (is_flare_day _ i); lia.
    + pose proof (sum_pointwise_le
                    (fun i => if is_flare_day ((s, e) :: ps) i then 1 else 0)
                    (fun i => (if (s <=? i) && (i <? e) then 1 else 0)
                              + (if is_flare_day ps i then 1 else 0))
                    (range (Z.of_nat m))) as Hle.
      rewrite sum_map_add, count_interval in Hle by exact Hs.
      cbn [length]. rewrite Nat2Z.inj_succ.
      assert (Hpt : forall i, In i (range (Z.of_nat m)) ->
                (if is_flare_day ((s, e) :: ps) i then 1 else 0)
                <= (if (s <=? i) && (i <? e) then 1 else 0)
                   + (if is_flare_day ps i then 1 else 0)).
      { intros i _. unfold is_flare_day. cbn [existsb].
        destruct ((s <=? i) && (i <? e)); cbn [orb];
          destruct (existsb _ ps); lia. }
      specialize (Hle Hpt). lia.
Qed.

Lemma flare_count_lower (s e : Z) (ps : list (Z * Z)) (m : nat) :
  0 <= s -> e <= Z.of_nat m ->
  e - s <= fold_right Z.add 0
             (map (fun i => if is_flare_day ((s, e) :: ps) i then 1 else 0)
                  (range (Z.of_nat m))).
Proof.
  intros Hs He.
  pose proof (sum_pointwise_le
                (fun i => if (s <=? i) && (i <? e) then 1 else 0)
                (fun i => if is_flare_day ((s, e) :: ps) i then 1 else 0)
                (range (Z.of_nat m))) as Hle.
  rewrite count_interval in Hle by exact Hs.
  assert (Hpt : forall i, In i (range (Z.of_nat m)) ->
            (if (s <=? i) && (i <? e) then 1 else 0)
            <= (if is_flare_day ((s, e) :: ps) i then 1 else 0)).
  { intros i _. unfold is_flare_day. cbn [existsb].
    destruct ((s <=? i) && (i <? e)); cbn [orb]; [lia|].
    destruct (existsb _ ps); lia. }
  specialize (Hle Hpt). lia.
Qed.

(** The label column of a returned frame. *)
Lemma label_column (pid : string) (num_days : Z) (dev : Device) (src : Source)
    (n : nat) (rows : list Row) (n' : nat) (periods : list (Z * Z)) (n1 : nat) :
  generate_patient_timeline pid num_days dev src n = Ok (rows, n') ->
  draw_flare_periods num_days src (8 + n)%nat = Ok (periods, n1) ->
  map in_flare rows
  = map (fun i => if is_flare_day periods i then 1 else 0) (range num_days).
Proof.
  intros Hrun Hp.
  destruct (timeline_inv _ _ _ _ _ _ _ Hrun) as (periods' & n1' & Hp' & Hlen & Hrows).
  rewrite Hp in Hp'. injection Hp' as <- <-.
  apply nth_error_ext. intros i. rewrite !nth_error_map.
  destruct (nth_error rows i) as [r|] eqn:Er.
  - assert (i < length rows)%nat by (apply nth_error_Some; congruence).
    rewrite nth_error_range_lt by lia.
    destruct (Hrows _ _ Er) as (u & v & ->). cbn [option_map]. now rewrite row_label.
  - apply nth_error_None in Er.
    assert (E : nth_error (range num_days) i = None)
      by (apply nth_error_None; rewrite range_length; lia).
    now rewrite E.
Qed.

(** X8.  A patient has at most 3 episodes and at most 21 flare days per
    episode, so at most 63 rows with in_flare = 1; a patient without
    episodes has none, and a patient with an episode has at least 7,
    because every episode lies inside the timeline. *)
Theorem flare_days_per_patient (pid : string) (num_days : Z) (dev : Device)
    (src : Source) (n : nat) (rows : list Row) (n' : nat) :
  generate_patient_timeline pid num_days dev src n = Ok (rows, n') ->
  exists flare_periods n1,
    draw_flare_periods num_days src (8 + n)%nat = Ok (flare_periods, n1) /\
    (length flare_periods <= 3)%nat /\
    0 <= flare_days rows <= 21 * Z.of_nat (length flare_periods) /\
    flare_days rows <= 63 /\
    (flare_periods = [] -> flare_days rows = 0) /\
    (flare_periods <> [] -> 7 <= flare_days rows).
Proof.
  intros Hrun.
  destruct (timeline_inv _ _ _ _ _ _ _ Hrun) as (periods & n1 & Hp & _ & _).
  exists periods, n1. split; [exact Hp|].
  pose proof (draw_flare_periods_margins _ _ _ _ _ Hp) as Hm.
  assert (Hk : (length periods <= 3)%nat).
  { destruct (draw_flare_periods_cursor _ _ _ _ _ Hp) as [(_ & -> & _)|(_ & Hk & _)];
      [cbn; lia | lia]. }
  unfold flare_days. rewrite (label_column _ _ _ _ _ _ _ _ _ Hrun Hp), range_to_nat.
  assert (Hup := flare_count_upper periods (Z.to_nat num_days)).
  assert (Hshape : forall s e, In (s, e) periods -> 0 <= s /\ 0 <= e - s <= 21)
    by (intros s e Hin; apply Hm in Hin; lia).
  specialize (Hup Hshape).
  split; [exact Hk|]. split; [exact Hup|]. split; [lia|]. split.
  - intros ->. cbn [length] in Hup. lia.
  - intros Hne. destruct periods as [|[s e] ps]; [congruence|].
    destruct (Hm s e (or_introl eq_refl)) as (Hs & Hd & He).
    pose proof (flare_count_lower s e ps (Z.to_nat num_days)) as Hlow.
    assert (Hin : e <= Z.of_nat (Z.to_nat num_days)) by lia.
    specialize (Hlow ltac:(lia) Hin). lia.
Qed.

Lemma flare_days_per_patient_witness :
  generate_patient_timeline "P001" 90 Fitbit scenario_source 0%nat
  = Ok (rows_of scenario_run, 822%nat) /\
  exists flare_periods n1,
    draw_flare_periods 90 scenario_source (8 + 0)%nat = Ok (flare_periods, n1) /\
    (length flare_periods <= 3)%nat /\
    0 <= flare_days (rows_of scenario_run) <= 21 * Z.of_nat (length flare_periods) /\
    flare_days (rows_of scenario_run) <= 63 /\
    (flare_periods = [] -> flare_days (rows_of scenario_run) = 0) /\
    (flare_periods <> [] -> 7 <= flare_days (rows_of scenario_run)).
Proof.
  assert (H : generate_patient_timeline "P001" 90 Fitbit scenario_source 0%nat
              = Ok (rows_of scenario_run, 822%nat)) by (vm_compute; reflexivity).
  split; [exact H|].
  exact (flare_days_per_patient "P001" 90 Fitbit scenario_source 0%nat _ _ H).
Defined.

(** * Properties of [main] *)

(** ** Patient identifiers *)

Lemma uint_of_zeros (k : nat) (d : uint) :
  NilEmpty.uint_of_string (zeros k ++ NilEmpty.string_of_uint d)
  = Some (Nat.iter k D0 d).
Proof.
  induction k as [|k IH]; cbn [zeros String.append Nat.iter].
  - apply NilEmpty.usu.
  - cbn [NilEmpty.uint_of_string]. rewrite IH. reflexivity.
Qed.

Lemma int_of_padded (k : nat) (d : uint) :
  d <> Nil ->
  NilZero.int_of_string (zeros k ++ NilEmpty.string_of_uint d)
  = Some (Pos (Nat.iter k D0 d)).
Proof.
  intros Hd. pose proof (uint_of_zeros k d) as U.
  destruct k as [|k].
  - cbn [zeros String.append Nat.iter] in *.
    destruct d; try congruence;
      cbn [NilEmpty.string_of_uint] in *;
      unfold NilZero.int_of_string, NilZero.uint_of_string;
      cbn [Ascii.eqb Bool.eqb]; rewrite U; reflexivity.
  - cbn [zeros String.append] in *.
    unfold NilZero.int_of_string, NilZero.uint_of_string.
    cbn [Ascii.eqb Bool.eqb]. rewrite U. reflexivity.
Qed.

Lemma of_uint_zeros (k : nat) (d : uint) : Z.of_uint (Nat.iter k D0 d) = Z.of_uint d.
Proof. induction k as [|k IH]; [reflexivity|]. cbn [Nat.iter]. exact IH. Qed.

(** The number can be read back from its zero-padded form. *)
Lemma format_03d_read (n : Z) :
  0 <= n ->
  option_map Z.of_int (NilZero.int_of_string (format_03d n)) = Some n.
Proof.
  intros Hn. pose proof (DecimalZ.of_to n) as Hround.
  unfold format_03d, zfill.
  destruct (Z.to_int n) as [d|d] eqn:E.
  - assert (Hd : d <> Nil).
    { intros ->. cbn in Hround. subst n. discriminate E. }
    replace (NilZero.string_of_uint d) with (NilEmpty.string_of_uint d)
      by (destruct d; congruence || reflexivity).
    rewrite int_of_padded by exact Hd.
    cbn [option_map Z.of_int]. rewrite of_uint_zeros. exact (f_equal Some Hround).
  - destruct n as [|p|p]; cbn in E; try discriminate. lia.
Qed.

Lemma patient_id_of_inj (i j : Z) :
  0 <= i -> 0 <= j -> patient_id_of i = patient_id_of j -> i = j.
Proof.
  intros Hi Hj H. unfold patient_id_of in H. injection H as H.
  pose proof (format_03d_read (i + 1) ltac:(lia)) as Ri.
  pose proof (format_03d_read (j + 1) ltac:(lia)) as Rj.
  rewrite H in Ri. rewrite Ri in Rj. injection Rj as Rj. lia.
Qed.

Lemma three_digit_ids :
  forallb (fun i => Nat.eqb (String.length (patient_id_of i)) 4) (range 999) = true.
Proof. vm_compute. reflexivity. Qed.

(** X9.  The identifier of line 252 is "P" followed by the patient
    number, zero-padded to three digits: the number can be read back
    from it, so different patients get different identifiers, and the
    identifiers of the first 999 patients have exactly 4 characters. *)
Theorem patient_id_round_trip (i j : Z) :
  0 <= i -> 0 <= j ->
  (exists digits,
     patient_id_of i = String "P"%char digits /\
     option_map Z.of_int (NilZero.int_of_string digits) = Some (i + 1)) /\
  (patient_id_of i = patient_id_of j -> i = j) /\
  (i < 999 -> String.length (patient_id_of i) = 4%nat).
Proof.
  intros Hi Hj. split; [|split].
  - exists (format_03d (i + 1)). split; [reflexivity|]. apply format_03d_read. lia.
  - now apply patient_id_of_inj.
  - intros Hlt. pose proof three_digit_ids as T. rewrite forallb_forall in T.
    apply Nat.eqb_eq. apply T. apply In_range. lia.
Qed.

Lemma patient_id_round_trip_witness :
  0 <= 0 /\ 0 <= 99 /\
  (patient_id_of 0 = patient_id_of 99 -> 0 = 99) /\
  String.length (patient_id_of 0) = 4%nat.
Proof.
  split; [lia|]. split; [lia|].
  destruct (patient_id_round_trip 0 99 ltac:(lia) ltac:(lia)) as (_ & Hinj & Hlen).
  split; [exact Hinj | apply Hlen; lia].
Defined.

(** ** The device of a patient *)

Lemma device_cdf :
  let cdf := np_cumsum (map snd DEVICE_DISTRIBUTION) in
  map (fun c => (c / last cdf Float.nan)%float) cdf
  = [Float.decimal 70 100; Float.decimal 85 100; Float.of_int 1].
Proof. vm_compute. reflexivity. Qed.

Lemma device_choice_cases (src : Source) (n : nat) :
  np_random_choice (map fst DEVICE_DISTRIBUTION) (map snd DEVICE_DISTRIBUTION) src n
  = if Float.ltb (double_at src n) (Float.decimal 70 100)
    then Returned (AppleWatch, S n)
    else if Float.ltb (double_at src n) (Float.decimal 85 100)
         then Returned (Fitbit, S n)
         else if Float.ltb (double_at src n) (Float.of_int 1)
              then Returned (OuraRing, S n)
              else Raised IndexError.
Proof.
  unfold np_random_choice. cbv zeta. rewrite device_cdf.
  cbn [searchsorted_right].
  destruct (Float.ltb (double_at src n) (Float.decimal 70 100)); [reflexivity|].
  destruct (Float.ltb (double_at src n) (Float.decimal 85 100)); [reflexivity|].
  destruct (Float.ltb (double_at src n) (Float.of_int 1)); reflexivity.
Qed.

(** X10.  The device is read off one uniform draw [u] against the
    cumulative probabilities 0.70, 0.85 and 1.0, which the table sums
    to exactly in binary64: Apple Watch below 0.70, Fitbit from 0.70 to
    below 0.85, Oura Ring from 0.85 to below 1.0; a draw that is not
    below 1.0 finds no device and raises. *)
Theorem device_choice_thresholds (src : Source) (n : nat) :
  let u := double_at src n in
  let pick :=
    np_random_choice (map fst DEVICE_DISTRIBUTION) (map snd DEVICE_DISTRIBUTION) src n in
  (Float.ltb u (Float.decimal 70 100) = true -> pick = Returned (AppleWatch, S n)) /\
  (Float.ltb u (Float.decimal 70 100) = false ->
   Float.ltb u (Float.decimal 85 100) = true -> pick = Returned (Fitbit, S n)) /\
  (Float.ltb u (Float.decimal 70 100) = false ->
   Float.ltb u (Float.decimal 85 100) = false ->
   Float.ltb u (Float.of_int 1) = true -> pick = Returned (OuraRing, S n)) /\
  (Float.ltb u (Float.of_int 1) = true -> exists dev, pick = Returned (dev, S n)) /\
  (Float.ltb u (Float.decimal 70 100) = false ->
   Float.ltb u (Float.decimal 85 100) = false ->
   Float.ltb u (Float.of_int 1) = false -> pick = Raised IndexError).
Proof.
  intros u pick. subst u pick. rewrite device_choice_cases.
  repeat match goal with |- _ /\ _ => split end.
  - now intros ->.
  - now intros -> ->.
  - now intros -> -> ->.
  - intros ->. destruct (Float.ltb _ (Float.decimal 70 100)); [now eexists|].
    destruct (Float.ltb _ (Float.decimal 85 100)); now eexists.
  - now intros -> -> ->.
Qed.

Lemma device_choice_thresholds_witness :
  Float.ltb (double_at steady_source 0) (Float.decimal 70 100) = false /\
  Float.ltb (double_at steady_source 0) (Float.decimal 85 100) = true /\
  np_random_choice (map fst DEVICE_DISTRIBUTION) (map snd DEVICE_DISTRIBUTION)
    steady_source 0%nat = Returned (Fitbit, 1%nat).
Proof.
  assert (H70 : Float.ltb (double_at steady_source 0) (Float.decimal 70 100) = false)
    by (vm_compute; reflexivity).
  assert (H85 : Float.ltb (double_at steady_source 0) (Float.decimal 85 100) = true)
    by (vm_compute; reflexivity).
  split; [exact H70|]. split; [exact H85|].
  exact (proj1 (proj2 (device_choice_thresholds steady_source 0%nat)) H70 H85).
Defined.

(** ** One patient, all patients *)

Section MainLoops.

Context {A B : Type} (body : A -> Main B) (src : Source).

Lemma main_for_each_rows (xs : list A) :
  forall n ys n',
    main_for_each body xs src n = Returned (ys, n') ->
    Forall2 (fun x y => exists m m', body x src m = Returned (y, m')) xs ys.
Proof.
  induction xs as [|x xs IH]; intros n ys n'; cbn [main_for_each];
    unfold main_bind, main_ret.
  - intros [= <- _]. constructor.
  - destruct (body x src n) as [[y n1]|e] eqn:Ey; [|discriminate].
    destruct (main_for_each body xs src n1) as [[ys' n2]|e] eqn:Eys; [|discriminate].
    intros [= <- _]. constructor; [now exists n, n1 | now apply IH with n1 n2].
Qed.

Lemma main_for_each_returns (xs : list A) :
  (forall x n, exists y n', body x src n = Returned (y, n')) ->
  forall n, exists ys n', main_for_each body xs src n = Returned (ys, n').
Proof.
  intros Hbody. induction xs as [|x xs IH]; intros n; cbn [main_for_each];
    unfold main_bind, main_ret.
  - now exists [], n.
  - destruct (Hbody x n) as (y & n1 & ->).
    destruct (IH n1) as (ys & n2 & ->).
    now exists (y :: ys), n2.
Qed.

End MainLoops.

Lemma py_int_finite (x : float) :
  finite x = true -> exists z, py_int x = Returned z.
Proof. destruct x; try discriminate; intros _; now eexists. Qed.

(** A frame behind the clamp: it exists, and its rows carry the
    arguments of the call. *)
Lemma clamped_timeline (pid : string) (raw : Z) (dev : Device) (src : Source) (n : nat) :
  exists rows n',
    generate_patient_timeline pid (clamp_num_days raw) dev src n = Ok (rows, n') /\
    90 <= Z.of_nat (length rows) <= 365 /\
    Forall (fun r => patient_id r = pid /\ device r = dev) rows.
Proof.
  pose proof (clamp_num_days_range raw) as Hc.
  destruct (draw_flare_periods_run (clamp_num_days raw) src (8 + n)%nat)
    as (periods & n1 & Hp); [lia|].
  destruct (timeline_returns pid (clamp_num_days raw) dev src n periods n1
              ltac:(lia) Hp)
    as (rows & n' & Hrun).
  exists rows, n'. split; [exact Hrun|].
  destruct (timeline_inv _ _ _ _ _ _ _ Hrun) as (periods' & n1' & _ & Hlen & Hrows).
  split; [rewrite Hlen; lia|].
  apply Forall_forall. intros r Hr. apply In_nth_error in Hr. destruct Hr as [i Hi].
  destruct (Hrows _ _ Hi) as (u & v & ->). split; reflexivity.
Qed.

Lemma main_patient_frame (i : Z) (src : Source) (n : nat) :
  Float.ltb (double_at src n) (Float.of_int 1) = true ->
  finite (Float.of_int MEAN_DAYS_PER_PATIENT
          + Float.of_int STD_DAYS * gauss_at src (S n))%float = true ->
  exists rows n',
    main_patient i src n = Returned (rows, n') /\
    90 <= Z.of_nat (length rows) <= 365 /\
    Forall (fun r => patient_id r = patient_id_of i) rows.
Proof.
  intros Hu Hx. unfold main_patient, main_bind. rewrite device_choice_cases.
  assert (Hdev : exists dev,
            (if Float.ltb (double_at src n) (Float.decimal 70 100)
             then Returned (AppleWatch, S n)
             else if Float.ltb (double_at src n) (Float.decimal 85 100)
                  then Returned (Fitbit, S n)
                  else if Float.ltb (double_at src n) (Float.of_int 1)
                       then Returned (OuraRing, S n)
                       else Raised IndexError) = Returned (dev, S n)).
  { rewrite Hu. destruct (Float.ltb _ (Float.decimal 70 100)); [now eexists|].
    destruct (Float.ltb _ (Float.decimal 85 100)); now eexists. }
  destruct Hdev as [dev ->].
  unfold lift at 1, np_random_normal, call.
  destruct (py_int_finite _ Hx) as [z ->].
  destruct (clamped_timeline (patient_id_of i) z dev src (S (S n)))
    as (rows & n' & Hrun & Hlen & Hrows).
  unfold lift. rewrite Hrun. exists rows, n'. split; [reflexivity|].
  split; [exact Hlen|]. revert Hrows. apply Forall_impl. now intros r [? _].
Qed.

(** X11.  One pass of the patient loop returns a frame whenever the
    device draw is below 1.0 and the duration draw is a finite number:
    the frame has between 90 and 365 rows, and each row carries the
    identifier of the pass. *)
Theorem main_patient_returns (i : Z) (src : Source) (n : nat) :
  Float.ltb (double_at src n) (Float.of_int 1) = true ->
  finite (Float.of_int MEAN_DAYS_PER_PATIENT
          + Float.of_int STD_DAYS * gauss_at src (S n))%float = true ->
  exists rows n',
    main_patient i src n = Returned (rows, n') /\
    90 <= Z.of_nat (length rows) <= 365 /\
    Forall (fun r => patient_id r = patient_id_of i) rows.
Proof. apply main_patient_frame. Qed.

Lemma main_patient_returns_witness :
  Float.ltb (double_at steady_source 0) (Float.of_int 1) = true /\
  finite (Float.of_int MEAN_DAYS_PER_PATIENT
          + Float.of_int STD_DAYS * gauss_at steady_source 1)%float = true /\
  exists rows n',
    main_patient 0 steady_source 0%nat = Returned (rows, n') /\
    90 <= Z.of_nat (length rows) <= 365 /\
    Forall (fun r => patient_id r = patient_id_of 0) rows.
Proof.
  assert (Hu : Float.ltb (double_at steady_source 0) (Float.of_int 1) = true)
    by (vm_compute; reflexivity).
  assert (Hx : finite (Float.of_int MEAN_DAYS_PER_PATIENT
                       + Float.of_int STD_DAYS * gauss_at steady_source 1)%float = true)
    by (vm_compute; reflexivity).
  split; [exact Hu|]. split; [exact Hx|].
  exact (main_patient_returns 0 steady_source 0%nat Hu Hx).
Defined.

Lemma concat_length_bounds {A : Type} (a b : nat) (frames : list (list A)) :
  Forall (fun frame => a <= length frame <= b)%nat frames ->
  (a * length frames <= length (concat frames) <= b * length frames)%nat.
Proof.
  induction 1 as [|frame frames Hf _ IH]; cbn [concat length]; [lia|].
  rewrite length_app. lia.
Qed.

(** X13.  When every uniform draw is below 1.0 and every duration draw
    is finite, the patient loop returns 100 frames; frame [i] has
    between 90 and 365 rows, all carrying the identifier of patient
    [i + 1], so rows of different frames never share an identifier; and
    the concatenated frame has between 9000 and 36500 rows. *)
Theorem all_patients_returned (src : Source) (n : nat) :
  (forall m, Float.ltb (double_at src m) (Float.of_int 1) = true) ->
  (forall m, finite (Float.of_int MEAN_DAYS_PER_PATIENT
                     + Float.of_int STD_DAYS * gauss_at src m)%float = true) ->
  exists frames n',
    all_patients_data src n = Returned (frames, n') /\
    length frames = 100%nat /\
    (forall i frame, nth_error frames i = Some frame ->
       90 <= Z.of_nat (length frame) <= 365 /\
       Forall (fun r => patient_id r = patient_id_of (Z.of_nat i)) frame) /\
    (forall i j frame frame' r r',
       nth_error frames i = Some frame -> nth_error frames j = Some frame' ->
       In r frame -> In r' frame' -> patient_id r = patient_id r' -> i = j) /\
    9000 <= Z.of_nat (length (combined_df frames)) <= 36500.
Proof.
  intros Hu Hx. unfold all_patients_data.
  assert (Hpass : forall i m, exists rows m', main_patient i src m = Returned (rows, m')).
  { intros i m.
    destruct (main_patient_frame i src m (Hu m) (Hx (S m))) as (rows & m' & Hrows & _).
    now exists rows, m'. }
  destruct (main_for_each_returns main_patient src (range NUM_PATIENTS) Hpass n)
    as (frames & n' & Hrun).
  exists frames, n'. split; [exact Hrun|].
  apply main_for_each_rows in Hrun.
  assert (Hlen : length frames = 100%nat).
  { apply Forall2_length in Hrun. rewrite <- Hrun, range_length. reflexivity. }
  assert (Hframe : forall i frame, nth_error frames i = Some frame ->
            90 <= Z.of_nat (length frame) <= 365 /\
            Forall (fun r => patient_id r = patient_id_of (Z.of_nat i)) frame).
  { intros i frame Hi.
    destruct (Forall2_nth_error_r _ _ _ Hrun i frame Hi) as (x & Hx' & m & m' & Hbody).
    apply nth_error_range in Hx'. destruct Hx' as [-> _].
    destruct (main_patient_frame (Z.of_nat i) src m (Hu m) (Hx (S m)))
      as (rows & n1 & Hrows & Hsize & Hids).
    rewrite Hrows in Hbody. injection Hbody as <- _. now split. }
  split; [exact Hlen|]. split; [exact Hframe|]. split.
  - intros i j frame frame' r r' Hi Hj Hr Hr' Hid.
    destruct (Hframe i frame Hi) as [_ Fi]. destruct (Hframe j frame' Hj) as [_ Fj].
    rewrite Forall_forall in Fi, Fj.
    rewrite (Fi r Hr), (Fj r' Hr') in Hid.
    apply patient_id_of_inj in Hid; lia.
  - unfold combined_df.
    pose proof (concat_length_bounds 90 365 frames) as Hb.
    rewrite Hlen in Hb.
    assert (Hall : Forall (fun frame : list Row => (90 <= length frame <= 365)%nat) frames);
      [|specialize (Hb Hall); lia].
    apply Forall_forall. intros frame Hin.
    apply In_nth_error in Hin. destruct Hin as [i Hi].
    destruct (Hframe i frame Hi) as [Hsize _]. lia.
Qed.

Lemma all_patients_returned_witness :
  (forall m, Float.ltb (double_at steady_source m) (Float.of_int 1) = true) /\
  (forall m, finite (Float.of_int MEAN_DAYS_PER_PATIENT
                     + Float.of_int STD_DAYS * gauss_at steady_source m)%float = true) /\
  exists frames n',
    all_patients_data steady_source 0%nat = Returned (frames, n') /\
    length frames = 100%nat /\
    9000 <= Z.of_nat (length (combined_df frames)) <= 36500.
Proof.
  assert (Hu : forall m, Float.ltb (double_at steady_source m) (Float.of_int 1) = true)
    by (intros m; vm_compute; reflexivity).
  assert (Hx : forall m, finite (Float.of_int MEAN_DAYS_PER_PATIENT
                                 + Float.of_int STD_DAYS * gauss_at steady_source m)%float
                         = true)
    by (intros m; vm_compute; reflexivity).
  split; [exact Hu|]. split; [exact Hx|].
  destruct (all_patients_returned steady_source 0%nat Hu Hx)
    as (frames & n' & Hrun & Hlen & _ & _ & Hsize).
  exists frames, n'. split; [exact Hrun|]. split; [exact Hlen | exact Hsize].
Defined.

(** ** Edge behaviour of the generator *)

Lemma draw_flare_periods_none (num_days : Z) (src : Source) (n : nat) :
  Float.ltb (double_at src n) (Float.decimal 5 10) = false ->
  draw_flare_periods num_days src n = Ok ([], S n).
Proof.
  intros H. unfold draw_flare_periods, bind, ret, np_random_random. now rewrite H.
Qed.

Lemma range_first (k : Z) : 1 <= k -> exists rest, range k = 0 :: rest.
Proof.
  intros H. unfold range. destruct (Z.to_nat k) as [|m] eqn:E; [lia|].
  cbn [seq map]. now eexists.
Qed.

(** X14.  A patient who draws no flare gets a frame for every
    num_days up to 2913174, zero and negative ones included: the call
    does not raise, returns [max(num_days, 0)] rows, all with
    in_flare = 0 and days_to_flare = -1, and consumes 9 draws and 9 per
    row. *)
Theorem timeline_without_flare (pid : string) (num_days : Z) (dev : Device)
    (src : Source) (n : nat) :
  num_days <= 2913174 ->
  Float.ltb (double_at src (8 + n)%nat) (Float.decimal 5 10) = false ->
  exists rows,
    generate_patient_timeline pid num_days dev src n
    = Ok (rows, (9 * Z.to_nat num_days + 9 + n)%nat) /\
    Z.of_nat (length rows) = Z.max num_days 0 /\
    Forall (fun r => in_flare r = 0 /\ days_to_flare r = -1) rows.
Proof.
  intros Hmax Hu. pose proof (draw_flare_periods_none num_days src _ Hu) as Hp.
  destruct (timeline_returns pid num_days dev src n _ _ Hmax Hp)
    as (rows & n' & Hrun).
  destruct (timeline_cursor _ _ _ _ _ _ _ Hrun)
    as (periods & n1 & Hp' & Hlen & Hn' & Hrows).
  rewrite Hp in Hp'. injection Hp' as <- <-.
  exists rows. split; [|split].
  - rewrite Hrun, Hn', Hlen. do 2 f_equal. lia.
  - rewrite Hlen. lia.
  - apply Forall_forall. intros r Hr. apply In_nth_error in Hr. destruct Hr as [i Hi].
    destruct (Hrows _ _ Hi) as (v & ->). split; reflexivity.
Qed.

Lemma timeline_without_flare_witness :
  -3 <= 2913174 /\
  Float.ltb (double_at steady_source (8 + 0)%nat) (Float.decimal 5 10) = false /\
  exists rows,
    generate_patient_timeline "P001" (-3) AppleWatch steady_source 0%nat
    = Ok (rows, (9 * Z.to_nat (-3) + 9 + 0)%nat) /\
    Z.of_nat (length rows) = Z.max (-3) 0 /\
    Forall (fun r => in_flare r = 0 /\ days_to_flare r = -1) rows.
Proof.
  assert (H : Float.ltb (double_at steady_source (8 + 0)%nat) (Float.decimal 5 10)
              = false) by (vm_compute; reflexivity).
  split; [lia|]. split; [exact H|].
  exact (timeline_without_flare "P001" (-3) AppleWatch steady_source 0%nat
           ltac:(lia) H).
Defined.

(** X15.  A patient who draws a flare on a timeline of at most 67 days
    always makes the call raise [ValueError]: even the shortest episode
    leaves [np.random.randint] an empty range for the start. *)
Theorem short_timeline_with_flare_raises (pid : string) (num_days : Z) (dev : Device)
    (src : Source) (n : nat) :
  Float.ltb (double_at src (8 + n)%nat) (Float.decimal 5 10) = true ->
  num_days <= 67 ->
  generate_patient_timeline pid num_days dev src n = Raise ValueError.
Proof.
  intros Hu Hshort. unfold generate_patient_timeline, bind. cbv zeta.
  rewrite (dates_run _ _ src n (epoch_in_range num_days ltac:(lia))).
  destruct (draw_baseline_run src n) as [b ->].
  unfold draw_flare_periods, bind, ret, np_random_random. rewrite Hu.
  destruct (randint_run 1 4 src (S (8 + n))) as (k & Hk & ->); [lia|].
  destruct (range_first k) as [rest ->]; [lia|].
  cbn [for_each]. unfold bind, draw_flare_period, bind.
  destruct (randint_run 7 22 src (S (S (8 + n)))) as (d & Hd & ->); [lia|].
  unfold np_random_randint.
  destruct (Z.ltb_spec 30 (num_days - d - 30)); [lia | reflexivity].
Qed.

Lemma short_timeline_with_flare_raises_witness :
  Float.ltb (double_at scenario_source (8 + 0)%nat) (Float.decimal 5 10) = true /\
  60 <= 67 /\
  generate_patient_timeline "P001" 60 Fitbit scenario_source 0%nat = Raise ValueError.
Proof.
  assert (H : Float.ltb (double_at scenario_source (8 + 0)%nat) (Float.decimal 5 10)
              = true) by (vm_compute; reflexivity).
  split; [exact H|]. split; [lia|].
  apply (short_timeline_with_flare_raises "P001" 60 Fitbit scenario_source 0%nat H). lia.
Defined.



